(** * The caching, access-controlled database proxy of [proxy.py]

    A shallow embedding of
    [engenharia/2-design-patterns/estruturais/code_tests/proxy.py] and the
    properties of its permission gate, query cache, audit log, metrics and
    proxy operations.

    Conventions of the embedding.
    - A Python [str] is a Rocq [string] read as a sequence of the code points
      U+0000..U+00FF.
    - [datetime.now()] and [time.time()] read one wall clock.  A reading is an
      integer number of microseconds; the clock is a tape of readings and each
      call consumes the next one.  [time.sleep] only delays later readings and
      is not modelled otherwise.
    - The [random] module is a tape of raw draws.
    - [print] calls are omitted. *)

From Stdlib Require Import ZArith List String Ascii Bool Lia.
Import ListNotations.

Local Open Scope Z_scope.

(* ------------------------------------------------------------------ *)
(** * Python text operations *)

Module PyStr.

Definition code (c : ascii) : Z := Z.of_N (N_of_ascii c).
Definition chr (z : Z) : ascii := ascii_of_N (Z.to_N z).

Definition between (lo hi n : Z) : bool := (lo <=? n) && (n <=? hi).

(** [str.isspace] on one code point below U+0100. *)
Definition isspace (c : ascii) : bool :=
  let n := code c in
  between 9 13 n || between 28 32 n || (n =? 133) || (n =? 160).

(** [str.lower] on one code point: A-Z, and the Latin-1 capitals
    U+00C0..U+00DE without the multiplication sign U+00D7. *)
Definition lower_char (c : ascii) : ascii :=
  let n := code c in
  if between 65 90 n || (between 192 222 n && negb (n =? 215))
  then chr (n + 32) else c.

(** [str.upper] on one code point: a-z, and the Latin-1 small letters
    U+00E0..U+00FE without the division sign U+00F7.  Three code points have
    an upper-case form outside U+0000..U+00FF (U+00B5 gives U+039C, U+00DF
    gives the two letters SS, U+00FF gives U+0178) and are left as they are.
    The only use of the upper-cased text that matters is [startswith] on the
    ASCII keywords of the permission check, and it cannot see the difference:
    no keyword contains SS or ends in S, and the other two images are not
    ASCII. *)
Definition upper_char (c : ascii) : ascii :=
  let n := code c in
  if between 97 122 n || (between 224 254 n && negb (n =? 247))
  then chr (n - 32) else c.

Fixpoint lower (s : string) : string :=
  match s with
  | EmptyString => EmptyString
  | String c s' => String (lower_char c) (lower s')
  end.

Fixpoint upper (s : string) : string :=
  match s with
  | EmptyString => EmptyString
  | String c s' => String (upper_char c) (upper s')
  end.

Fixpoint lstrip (s : string) : string :=
  match s with
  | EmptyString => EmptyString
  | String c s' => if isspace c then lstrip s' else s
  end.

Fixpoint rstrip (s : string) : string :=
  match s with
  | EmptyString => EmptyString
  | String c s' =>
      match rstrip s' with
      | EmptyString => if isspace c then EmptyString else String c EmptyString
      | r => String c r
      end
  end.

(** [s.strip()] *)
Definition strip (s : string) : string := rstrip (lstrip s).

(** [s.startswith(p)] *)
Fixpoint startswith (s p : string) {struct p} : bool :=
  match p, s with
  | EmptyString, _ => true
  | String a p', String b s' => Ascii.eqb a b && startswith s' p'
  | String _ _, EmptyString => false
  end.

(** [s.startswith((p1, p2, ...))] *)
Definition startswith_any (s : string) (ps : list string) : bool :=
  existsb (startswith s) ps.

(** [p in s] *)
Fixpoint contains (s p : string) : bool :=
  startswith s p ||
  match s with
  | EmptyString => false
  | String _ s' => contains s' p
  end.

(** [s.encode()]: UTF-8, one byte below U+0080 and two bytes above. *)
Fixpoint encode (s : string) : list Z :=
  match s with
  | EmptyString => []
  | String c s' =>
      let n := code c in
      if n <? 128 then n :: encode s'
      else Z.lor 192 (Z.shiftr n 6) :: Z.lor 128 (Z.land n 63) :: encode s'
  end.

End PyStr.

(* ------------------------------------------------------------------ *)
(** * [hashlib.md5(...).hexdigest()] (RFC 1321) *)

Module MD5.

Definition w32 (x : Z) : Z := x mod 4294967296.
Definition not32 (x : Z) : Z := Z.lxor x 4294967295.
Definition rotl (x n : Z) : Z :=
  w32 (Z.lor (Z.shiftl x n) (Z.shiftr x (32 - n))).

Definition K : list Z :=
  [ 0xd76aa478; 0xe8c7b756; 0x242070db; 0xc1bdceee;
    0xf57c0faf; 0x4787c62a; 0xa8304613; 0xfd469501;
    0x698098d8; 0x8b44f7af; 0xffff5bb1; 0x895cd7be;
    0x6b901122; 0xfd987193; 0xa679438e; 0x49b40821;
    0xf61e2562; 0xc040b340; 0x265e5a51; 0xe9b6c7aa;
    0xd62f105d; 0x02441453; 0xd8a1e681; 0xe7d3fbc8;
    0x21e1cde6; 0xc33707d6; 0xf4d50d87; 0x455a14ed;
    0xa9e3e905; 0xfcefa3f8; 0x676f02d9; 0x8d2a4c8a;
    0xfffa3942; 0x8771f681; 0x6d9d6122; 0xfde5380c;
    0xa4beea44; 0x4bdecfa9; 0xf6bb4b60; 0xbebfbc70;
    0x289b7ec6; 0xeaa127fa; 0xd4ef3085; 0x04881d05;
    0xd9d4d039; 0xe6db99e5; 0x1fa27cf8; 0xc4ac5665;
    0xf4292244; 0x432aff97; 0xab9423a7; 0xfc93a039;
    0x655b59c3; 0x8f0ccc92; 0xffeff47d; 0x85845dd1;
    0x6fa87e4f; 0xfe2ce6e0; 0xa3014314; 0x4e0811a1;
    0xf7537e82; 0xbd3af235; 0x2ad7d2bb; 0xeb86d391 ].

Definition R : list Z :=
  [ 7; 12; 17; 22; 7; 12; 17; 22; 7; 12; 17; 22; 7; 12; 17; 22;
    5; 9; 14; 20; 5; 9; 14; 20; 5; 9; 14; 20; 5; 9; 14; 20;
    4; 11; 16; 23; 4; 11; 16; 23; 4; 11; 16; 23; 4; 11; 16; 23;
    6; 10; 15; 21; 6; 10; 15; 21; 6; 10; 15; 21; 6; 10; 15; 21 ].

Definition at_ (l : list Z) (i : Z) : Z := nth (Z.to_nat i) l 0.

Definition state : Type := (Z * Z * Z * Z)%type.

Definition step (M : list Z) (st : state) (i : Z) : state :=
  let '(a, b, c, d) := st in
  let '(f, g) :=
    if i <? 16 then (Z.lor (Z.land b c) (Z.land (not32 b) d), i)
    else if i <? 32 then
      (Z.lor (Z.land d b) (Z.land (not32 d) c), (5 * i + 1) mod 16)
    else if i <? 48 then (Z.lxor b (Z.lxor c d), (3 * i + 5) mod 16)
    else (Z.lxor c (Z.lor b (not32 d)), (7 * i) mod 16) in
  let x := w32 (f + a + at_ K i + at_ M g) in
  (d, w32 (b + rotl x (at_ R i)), b, c).

(** Little-endian 32-bit words of a run of bytes. *)
Fixpoint words (n : nat) (bs : list Z) : list Z :=
  match n, bs with
  | S n', b0 :: b1 :: b2 :: b3 :: bs' =>
      (b0 + 256 * b1 + 65536 * b2 + 16777216 * b3) :: words n' bs'
  | _, _ => []
  end.

Definition block (st : state) (bs : list Z) : state :=
  let M := words 16 bs in
  let '(a, b, c, d) := st in
  let '(a', b', c', d') :=
    fold_left (step M) (map Z.of_nat (seq 0 64)) st in
  (w32 (a + a'), w32 (b + b'), w32 (c + c'), w32 (d + d')).

Fixpoint blocks (n : nat) (st : state) (bs : list Z) : state :=
  match n with
  | O => st
  | S n' => blocks n' (block st (firstn 64 bs)) (skipn 64 bs)
  end.

Definition le_bytes (n : nat) (x : Z) : list Z :=
  map (fun i => (Z.shiftr x (8 * Z.of_nat i)) mod 256) (seq 0 n).

Definition pad (bs : list Z) : list Z :=
  let len := Z.of_nat (List.length bs) in
  let zeros := Z.to_nat ((55 - len) mod 64) in
  bs ++ [128] ++ repeat 0 zeros ++ le_bytes 8 ((8 * len) mod 2 ^ 64).

Definition digest (bs : list Z) : list Z :=
  let p := pad bs in
  let '(a, b, c, d) :=
    blocks (List.length p / 64)
      (0x67452301, 0xefcdab89, 0x98badcfe, 0x10325476) p in
  le_bytes 4 a ++ le_bytes 4 b ++ le_bytes 4 c ++ le_bytes 4 d.

Definition hex_digit (n : Z) : ascii :=
  if n <? 10 then PyStr.chr (48 + n) else PyStr.chr (87 + n).

Fixpoint hex (bs : list Z) : string :=
  match bs with
  | [] => EmptyString
  | b :: bs' => String (hex_digit (b / 16)) (String (hex_digit (b mod 16)) (hex bs'))
  end.

Definition hexdigest (bs : list Z) : string := hex (digest bs).

End MD5.

(* ------------------------------------------------------------------ *)
(** * Python dictionaries

    A [dict] keeps its keys in insertion order: assigning to a key that is
    present keeps the key's position, assigning to a new key appends it.
    The order matters below, because [min] over the keys returns the first
    minimal key. *)

Module PyDict.
Section Dict.
Context {V : Type}.

Definition dict : Type := list (string * V).

(** [d[k]], [None] standing for [KeyError] *)
Fixpoint get (k : string) (d : dict) : option V :=
  match d with
  | [] => None
  | (k', v) :: d' => if String.eqb k k' then Some v else get k d'
  end.

(** [k in d] *)
Definition mem (k : string) (d : dict) : bool :=
  match get k d with Some _ => true | None => false end.

(** [d[k] = v] *)
Fixpoint set (k : string) (v : V) (d : dict) : dict :=
  match d with
  | [] => [(k, v)]
  | (k', v') :: d' =>
    if String.eqb k k' then (k', v) :: d' else (k', v') :: set k v d'
  end.

(** [del d[k]] for a key that is present *)
Fixpoint del (k : string) (d : dict) : dict :=
  match d with
  | [] => []
  | (k', v') :: d' =>
    if String.eqb k k' then del k d' else (k', v') :: del k d'
  end.

(** [d.keys()] *)
Definition keys (d : dict) : list string := map fst d.

(** [len(d)] *)
Definition len (d : dict) : Z := Z.of_nat (List.length d).

(** No key occurs twice: every dictionary Python can build. *)
Definition wf (d : dict) : Prop := NoDup (keys d).
End Dict.
Arguments dict : clear implicits.
End PyDict.

(** [min(ks, key=f)] on a non-empty sequence [k0 :: ks]: the running best is
    replaced only by a strictly smaller item, so the first minimal one wins. *)
Fixpoint py_min_from {A : Type} (f : A -> Z) (best : A) (ks : list A) : A :=
  match ks with
  | [] => best
  | k :: ks' => py_min_from f (if f k <? f best then k else best) ks'
  end.

(* ------------------------------------------------------------------ *)
(** * The world outside the program: wall clock and random generator *)

Record World : Type := {
    clock : nat -> Z;   (** the n-th reading of the wall clock, microseconds *)
    ticks : nat;        (** readings taken so far *)
    rng : nat -> Z;     (** the n-th raw draw of the generator *)
    draws : nat         (** draws taken so far *)
}.

(** [datetime.now()], and [time.time()] scaled to microseconds *)
Definition now (w : World) : Z * World :=
  (clock w (ticks w),
   {| clock := clock w; ticks := S (ticks w); rng := rng w; draws := draws w |}).

(** One raw draw of the generator. *)
Definition draw (w : World) : Z * World :=
  (rng w (draws w),
   {| clock := clock w; ticks := ticks w; rng := rng w; draws := S (draws w) |}).

(** [random.random() < 0.1], the draw read as a 53-bit fraction *)
Definition random_below_tenth (w : World) : bool * World :=
  let (x, w') := draw w in (10 * (x mod 2 ^ 53) <? 2 ^ 53, w').

(** [random.randint(lo, hi)] *)
Definition randint (lo hi : Z) (w : World) : Z * World :=
  let (x, w') := draw w in (lo + x mod (hi - lo + 1), w').

(** [timedelta(seconds=s)] in microseconds *)
Definition timedelta_seconds (s : Z) : Z := s * 1000000.

(* ------------------------------------------------------------------ *)
(** * Enums and data structures *)

Inductive PermissionType : Type :=
  SELECT | INSERT | UPDATE | DELETE | DDL | ADMIN.

Definition PermissionType_eqb (a b : PermissionType) : bool :=
  match a, b with
  | SELECT, SELECT | INSERT, INSERT | UPDATE, UPDATE
  | DELETE, DELETE | DDL, DDL | ADMIN, ADMIN => true
  | _, _ => false
  end.

(** A cell of a result row; a float literal is kept as digits and scale. *)
Inductive Value : Type :=
  | VInt (n : Z)
  | VStr (s : string)
  | VFloat (digits : Z) (scale : nat).

Definition Row : Type := list (string * Value).

Record QueryResult : Type := {
    rows : list Row;
    affected_rows : Z;
    execution_time : Z;
    timestamp : Z
}.

Record DatabaseConfig : Type := {
    host : string;
    port : Z;
    database : string;
    username : string;
    password : string;
    max_connections : Z;
    connection_timeout : Z
}.

(** Exceptions the code raises, and any other one a store may raise. *)
Inductive Exception : Type :=
  | PermissionError (msg : string)
  | RuntimeError (msg : string)
  | AttributeError (msg : string)
  | OtherError (kind msg : string).

(** How a call ends: it returns a value or raises. *)
Inductive Outcome (A : Type) : Type :=
  | Returns (a : A)
  | Raises (e : Exception).
Arguments Returns {A} a.
Arguments Raises {A} e.

(* ------------------------------------------------------------------ *)
(** * [UserPermissions] *)

Module UserPermissions.

Record t : Type := {
  user_id : string;
  permissions : list PermissionType
}.

(** [p in self.permissions] *)
Definition holds (p : PermissionType) (self : t) : bool :=
  existsb (PermissionType_eqb p) (permissions self).

Definition can_execute_select (self : t) : bool :=
  holds SELECT self || holds ADMIN self.
Definition can_execute_insert (self : t) : bool :=
  holds INSERT self || holds ADMIN self.
Definition can_execute_update (self : t) : bool :=
  holds UPDATE self || holds ADMIN self.
Definition can_execute_delete (self : t) : bool :=
  holds DELETE self || holds ADMIN self.
Definition can_execute_ddl (self : t) : bool :=
  holds DDL self || holds ADMIN self.

Definition has_permission (self : t) (operation : string) : bool :=
  let operation_upper := PyStr.upper operation in
  if PyStr.startswith operation_upper "SELECT" then can_execute_select self
  else if PyStr.startswith operation_upper "INSERT" then can_execute_insert self
  else if PyStr.startswith operation_upper "UPDATE" then can_execute_update self
  else if PyStr.startswith operation_upper "DELETE" then can_execute_delete self
  else if PyStr.startswith_any operation_upper ["CREATE"; "ALTER"; "DROP"]%string
    then can_execute_ddl self
  else false.

End UserPermissions.

(* ------------------------------------------------------------------ *)
(** * [QueryCache] *)

Module QueryCache.

Record t : Type := {
  max_size : Z;
  ttl_seconds : Z;
  _cache : PyDict.dict (QueryResult * Z);
  _access_times : PyDict.dict Z
}.

(** [QueryCache(max_size, ttl_seconds)] *)
Definition init (max_size ttl_seconds : Z) : t :=
  {| max_size := max_size; ttl_seconds := ttl_seconds;
     _cache := []; _access_times := [] |}.

Definition with_cache (d : PyDict.dict (QueryResult * Z)) (self : t) : t :=
  {| max_size := max_size self; ttl_seconds := ttl_seconds self;
     _cache := d; _access_times := _access_times self |}.

Definition with_access_times (d : PyDict.dict Z) (self : t) : t :=
  {| max_size := max_size self; ttl_seconds := ttl_seconds self;
     _cache := _cache self; _access_times := d |}.

Definition _get_cache_key (query : string) : string :=
  MD5.hexdigest (PyStr.encode (PyStr.strip (PyStr.lower query))).

(** [self._access_times[k]] as the sort key of [min]; the default is never
    used, [k] being one of the keys. *)
Definition access_time (self : t) (k : string) : Z :=
  match PyDict.get k (_access_times self) with Some x => x | None => 0 end.

Definition get (query : string) (self : t) (w : World)
  : option QueryResult * t * World :=
  let cache_key := _get_cache_key query in
  match PyDict.get cache_key (_cache self) with
  | Some (result, cached_time) =>
      let (t_check, w1) := now w in
      if t_check - cached_time <? timedelta_seconds (ttl_seconds self) then
        let (t_touch, w2) := now w1 in
        (Some result,
         with_access_times
           (PyDict.set cache_key t_touch (_access_times self)) self,
         w2)
      else
        let self1 := with_cache (PyDict.del cache_key (_cache self)) self in
        let self2 :=
          if PyDict.mem cache_key (_access_times self1)
          then with_access_times
                 (PyDict.del cache_key (_access_times self1)) self1
          else self1 in
        (None, self2, w1)
  | None => (None, self, w)
  end.

Definition _evict_oldest (self : t) : t :=
  match PyDict.keys (_access_times self) with
  | [] => self
  | k0 :: ks =>
      let oldest_key := py_min_from (access_time self) k0 ks in
      let self1 :=
        if PyDict.mem oldest_key (_cache self)
        then with_cache (PyDict.del oldest_key (_cache self)) self
        else self in
      with_access_times (PyDict.del oldest_key (_access_times self1)) self1
  end.

Definition put (query : string) (result : QueryResult) (self : t) (w : World)
  : t * World :=
  let cache_key := _get_cache_key query in
  let self1 :=
    if PyDict.len (_cache self) >=? max_size self
    then _evict_oldest self else self in
  let (t_ins, w1) := now w in
  let self2 :=
    with_cache (PyDict.set cache_key (result, t_ins) (_cache self1)) self1 in
  let (t_acc, w2) := now w1 in
  (with_access_times
     (PyDict.set cache_key t_acc (_access_times self2)) self2,
   w2).

Definition clear (self : t) : t :=
  with_access_times [] (with_cache [] self).

End QueryCache.

(* ------------------------------------------------------------------ *)
(** * [AuditLogger] *)

(** What [log_query] may be handed as [result: Any]. *)
Inductive PyValue : Type :=
  | PyNone
  | PyQueryResult (r : QueryResult)
  | PyInt (n : Z).

Module AuditLogger.

(** A log entry; the keys an entry does not have are [None]. *)
Record LogEntry : Type := {
  timestamp : Z;
  user_id : string;
  operation : string;
  query : option string;
  success : bool;
  rows_returned : option Z
}.

Record t : Type := {
  log_file : string;
  _logs : list LogEntry
}.

Definition init : t := {| log_file := "database_audit.log"; _logs := [] |}.

Definition append (e : LogEntry) (self : t) : t :=
  {| log_file := log_file self; _logs := _logs self ++ [e] |}.

Definition log_query (user_id query : string) (result : PyValue)
    (self : t) (w : World) : t * World :=
  let (ts, w1) := now w in
  let log_entry :=
    {| timestamp := ts;
       user_id := user_id;
       operation := "QUERY";
       query := Some query;
       success := match result with PyNone => false | _ => true end;
       rows_returned :=
         Some match result with
              | PyQueryResult r => Z.of_nat (List.length (rows r))
              | _ => 0
              end |} in
  (append log_entry self, w1).

Definition log_connection (user_id : string) (success : bool)
    (self : t) (w : World) : t * World :=
  let (ts, w1) := now w in
  let log_entry :=
    {| timestamp := ts;
       user_id := user_id;
       operation := "CONNECTION";
       query := None;
       success := success;
       rows_returned := None |} in
  (append log_entry self, w1).

Definition log_transaction (user_id operation : string)
    (self : t) (w : World) : t * World :=
  let (ts, w1) := now w in
  let log_entry :=
    {| timestamp := ts;
       user_id := user_id;
       operation := String.append "TRANSACTION_" (PyStr.upper operation);
       query := None;
       success := true;
       rows_returned := None |} in
  (append log_entry self, w1).

Definition get_audit_trail (user_id : string) (self : t) : list LogEntry :=
  filter (fun log => String.eqb (AuditLogger.user_id log) user_id)
         (_logs self).

End AuditLogger.

(* ------------------------------------------------------------------ *)
(** * [MetricsCollector] *)

Module MetricsCollector.

Record t : Type := {
  query_count : Z;
  cache_hits : Z;
  cache_misses : Z;
  total_execution_time : Z;
  connection_count : Z
}.

Definition init : t :=
  {| query_count := 0; cache_hits := 0; cache_misses := 0;
     total_execution_time := 0; connection_count := 0 |}.

Definition record_query (execution_time : Z) (self : t) : t :=
  {| query_count := query_count self + 1;
     cache_hits := cache_hits self;
     cache_misses := cache_misses self;
     total_execution_time := total_execution_time self + execution_time;
     connection_count := connection_count self |}.

Definition record_cache_hit (self : t) : t :=
  {| query_count := query_count self;
     cache_hits := cache_hits self + 1;
     cache_misses := cache_misses self;
     total_execution_time := total_execution_time self;
     connection_count := connection_count self |}.

Definition record_cache_miss (self : t) : t :=
  {| query_count := query_count self;
     cache_hits := cache_hits self;
     cache_misses := cache_misses self + 1;
     total_execution_time := total_execution_time self;
     connection_count := connection_count self |}.

Definition record_connection (self : t) : t :=
  {| query_count := query_count self;
     cache_hits := cache_hits self;
     cache_misses := cache_misses self;
     total_execution_time := total_execution_time self;
     connection_count := connection_count self + 1 |}.

Definition reset_metrics (self : t) : t := init.

End MetricsCollector.

(* ------------------------------------------------------------------ *)
(** * The subject interface [DatabaseService] *)

(** A method of a store object: it reads and changes the object and the
    world, and returns or raises. *)
Definition Method (S A : Type) : Type := S -> World -> Outcome A * S * World.

Class DatabaseService (S : Type) : Type := {
    svc_connect : Method S bool;
    svc_disconnect : Method S bool;
    svc_execute_query : string -> Method S QueryResult;
    svc_execute_update : string -> Method S Z;
    svc_begin_transaction : Method S bool;
    svc_commit_transaction : Method S bool;
    svc_rollback_transaction : Method S bool;
    svc_is_connected : Method S bool
}.

(* ------------------------------------------------------------------ *)
(** * The real subject [RealDatabaseService] *)

Module RealDatabaseService.

Record t : Type := {
  config : DatabaseConfig;
  _connected : bool;
  _in_transaction : bool;
  _connection_time : option Z;
  _mock_data : PyDict.dict (list Row)
}.

Definition mock_data : PyDict.dict (list Row) :=
  [ ("users",
     [ [("id", VInt 1); ("name", VStr "Alice");
        ("email", VStr "alice@example.com"); ("role", VStr "admin")];
       [("id", VInt 2); ("name", VStr "Bob");
        ("email", VStr "bob@example.com"); ("role", VStr "user")];
       [("id", VInt 3); ("name", VStr "Carol");
        ("email", VStr "carol@example.com"); ("role", VStr "user")];
       [("id", VInt 4); ("name", VStr "David");
        ("email", VStr "david@example.com"); ("role", VStr "manager")] ]);
    ("products",
     [ [("id", VInt 1); ("name", VStr "Laptop");
        ("price", VFloat 99999 2); ("category", VStr "Electronics")];
       [("id", VInt 2); ("name", VStr "Mouse");
        ("price", VFloat 2999 2); ("category", VStr "Electronics")];
       [("id", VInt 3); ("name", VStr "Book");
        ("price", VFloat 1999 2); ("category", VStr "Books")] ]) ]%string.

Definition init (config : DatabaseConfig) : t :=
  {| config := config; _connected := false; _in_transaction := false;
     _connection_time := None; _mock_data := mock_data |}.

Definition with_connected (b : bool) (time : option Z) (self : t) : t :=
  {| config := config self; _connected := b;
     _in_transaction := _in_transaction self;
     _connection_time := time; _mock_data := _mock_data self |}.

Definition with_in_transaction (b : bool) (self : t) : t :=
  {| config := config self; _connected := _connected self;
     _in_transaction := b;
     _connection_time := _connection_time self;
     _mock_data := _mock_data self |}.

Definition table (name : string) (self : t) : list Row :=
  match PyDict.get name (_mock_data self) with Some l => l | None => [] end.

Definition connect : Method t bool := fun self w =>
  if _connected self then (Returns true, self, w)
  else
    let (failed, w1) := random_below_tenth w in
    if failed then (Returns false, self, w1)
    else
      let (t_conn, w2) := now w1 in
      (Returns true, with_connected true (Some t_conn) self, w2).

Definition disconnect : Method t bool := fun self w =>
  if negb (_connected self) then (Returns true, self, w)
  else (Returns true, with_connected false None self, w).

Definition execute_query (query : string) : Method t QueryResult :=
  fun self w =>
  if negb (_connected self)
  then (Raises (RuntimeError "Not connected to database"), self, w)
  else
    let (start_time, w1) := now w in
    let (_, w2) := draw w1 in
    let query_lower := PyStr.strip (PyStr.lower query) in
    let rows :=
      if PyStr.startswith query_lower "select" then
        if PyStr.contains query_lower "users" then table "users" self
        else if PyStr.contains query_lower "products"
             then table "products" self
        else []
      else [] in
    let (t_end, w3) := now w2 in
    let execution_time := t_end - start_time in
    let (t_stamp, w4) := now w3 in
    (Returns {| rows := rows; affected_rows := 0;
                execution_time := execution_time;
                timestamp := t_stamp |},
     self, w4).

Definition execute_update (query : string) : Method t Z := fun self w =>
  if negb (_connected self)
  then (Raises (RuntimeError "Not connected to database"), self, w)
  else
    let (start_time, w1) := now w in
    let (_, w2) := draw w1 in
    let (affected_rows, w3) := randint 1 5 w2 in
    (Returns affected_rows, self, w3).

Definition begin_transaction : Method t bool := fun self w =>
  if negb (_connected self) then (Returns false, self, w)
  else (Returns true, with_in_transaction true self, w).

Definition commit_transaction : Method t bool := fun self w =>
  if negb (_in_transaction self) then (Returns false, self, w)
  else (Returns true, with_in_transaction false self, w).

Definition rollback_transaction : Method t bool := fun self w =>
  if negb (_in_transaction self) then (Returns false, self, w)
  else (Returns true, with_in_transaction false self, w).

Definition is_connected : Method t bool := fun self w =>
  (Returns (_connected self), self, w).

End RealDatabaseService.

#[export] Instance RealDatabaseService_service
    : DatabaseService RealDatabaseService.t := {
    svc_connect := RealDatabaseService.connect;
    svc_disconnect := RealDatabaseService.disconnect;
    svc_execute_query := RealDatabaseService.execute_query;
    svc_execute_update := RealDatabaseService.execute_update;
    svc_begin_transaction := RealDatabaseService.begin_transaction;
    svc_commit_transaction := RealDatabaseService.commit_transaction;
    svc_rollback_transaction := RealDatabaseService.rollback_transaction;
    svc_is_connected := RealDatabaseService.is_connected
}.

(* ------------------------------------------------------------------ *)
(** * Stateful code that may raise

    A computation runs on a state, returns or raises, and leaves a state
    behind: what it changed before raising stays changed. *)

Module Py.
Section Monad.
Context {St : Type}.

Definition M (A : Type) : Type := St -> Outcome A * St.

Definition ret {A} (a : A) : M A := fun st => (Returns a, st).

Definition bind {A B} (m : M A) (k : A -> M B) : M B := fun st =>
  match m st with
  | (Returns a, st') => k a st'
  | (Raises e, st') => (Raises e, st')
  end.

Definition raise {A} (e : Exception) : M A := fun st => (Raises e, st).

(** [try: body  except Exception as e: handler(e)] *)
Definition try_except {A} (body : M A) (handler : Exception -> M A) : M A :=
  fun st =>
  match body st with
  | (Returns a, st') => (Returns a, st')
  | (Raises e, st') => handler e st'
  end.
End Monad.
Arguments M : clear implicits.
End Py.

Declare Scope py_scope.
Delimit Scope py_scope with py.
Notation "x <- c ;; k" := (Py.bind c (fun x => k))
  (at level 61, c at next level, right associativity) : py_scope.
Notation "c ;; k" := (Py.bind c (fun _ => k))
  (at level 61, right associativity) : py_scope.

(* ------------------------------------------------------------------ *)
(** * The proxy [DatabaseProxy] *)

(** Calls the proxy makes on its cache and on the real service, in the order
    it makes them.  The record of calls is a ghost of the embedding: no code
    reads it. *)
Inductive CacheMethod : Type :=
  | cache_get (query : string)
  | cache_put (query : string)
  | cache_clear.

Inductive StoreMethod : Type :=
  | store_connect
  | store_disconnect
  | store_execute_query (query : string)
  | store_execute_update (query : string)
  | store_begin_transaction
  | store_commit_transaction
  | store_rollback_transaction
  | store_is_connected.

Inductive Call : Type :=
  | CacheCall (m : CacheMethod)
  | StoreCreated
  | StoreCall (m : StoreMethod) (raised : option Exception).

Module DatabaseProxy.
Section WithStore.
Context {S : Type} {svc : DatabaseService S}.
(** The class [_get_real_service] instantiates. *)
Context (new_service : DatabaseConfig -> S).

Record t : Type := {
  config : DatabaseConfig;
  user_permissions : UserPermissions.t;
  _real_service : option S;
  query_cache : QueryCache.t;
  audit_logger : AuditLogger.t;
  metrics_collector : MetricsCollector.t;
  calls : list Call
}.

(** [DatabaseProxy(config, user_permissions)] *)
Definition init (config : DatabaseConfig)
  (user_permissions : UserPermissions.t) : t :=
  {| config := config;
   user_permissions := user_permissions;
   _real_service := None;
   query_cache := QueryCache.init 50 300;
   audit_logger := AuditLogger.init;
   metrics_collector := MetricsCollector.init;
   calls := [] |}.

Definition with_real_service (s : option S) (self : t) : t :=
  {| config := config self; user_permissions := user_permissions self;
   _real_service := s; query_cache := query_cache self;
   audit_logger := audit_logger self;
   metrics_collector := metrics_collector self; calls := calls self |}.

Definition with_query_cache (c : QueryCache.t) (self : t) : t :=
  {| config := config self; user_permissions := user_permissions self;
   _real_service := _real_service self; query_cache := c;
   audit_logger := audit_logger self;
   metrics_collector := metrics_collector self; calls := calls self |}.

Definition with_audit_logger (a : AuditLogger.t) (self : t) : t :=
  {| config := config self; user_permissions := user_permissions self;
   _real_service := _real_service self; query_cache := query_cache self;
   audit_logger := a;
   metrics_collector := metrics_collector self; calls := calls self |}.

Definition with_metrics_collector (m : MetricsCollector.t) (self : t) : t :=
  {| config := config self; user_permissions := user_permissions self;
   _real_service := _real_service self; query_cache := query_cache self;
   audit_logger := audit_logger self;
   metrics_collector := m; calls := calls self |}.

Definition called (c : Call) (self : t) : t :=
  {| config := config self; user_permissions := user_permissions self;
   _real_service := _real_service self; query_cache := query_cache self;
   audit_logger := audit_logger self;
   metrics_collector := metrics_collector self;
   calls := calls self ++ [c] |}.

(** Proxy code runs on the proxy object and the world. *)
Definition M : Type -> Type := Py.M (t * World).

Local Open Scope py_scope.

(** ** Calls on the parts *)

Definition user : M string := fun '(self, w) =>
  (Returns (UserPermissions.user_id (user_permissions self)), (self, w)).

Definition time_time : M Z := fun '(self, w) =>
  let (x, w') := now w in (Returns x, (self, w')).

(** [self.query_cache.get(query)] *)
Definition cache_lookup (query : string) : M (option QueryResult) :=
  fun '(self, w) =>
  let '(r, c, w') := QueryCache.get query (query_cache self) w in
  (Returns r,
  (called (CacheCall (cache_get query)) (with_query_cache c self), w')).

(** [self.query_cache.put(query, result)] *)
Definition cache_store (query : string) (result : QueryResult) : M unit :=
  fun '(self, w) =>
  let '(c, w') := QueryCache.put query result (query_cache self) w in
  (Returns tt,
  (called (CacheCall (cache_put query)) (with_query_cache c self), w')).

(** [self.query_cache.clear()] *)
Definition cache_reset : M unit := fun '(self, w) =>
  (Returns tt,
  (called (CacheCall cache_clear)
    (with_query_cache (QueryCache.clear (query_cache self)) self), w)).

(** [self.audit_logger.<log>(...)] *)
Definition audit (log : AuditLogger.t -> World -> AuditLogger.t * World)
  : M unit := fun '(self, w) =>
  let '(a, w') := log (audit_logger self) w in
  (Returns tt, (with_audit_logger a self, w')).

(** [self.metrics_collector.<record>(...)] *)
Definition metric (record : MetricsCollector.t -> MetricsCollector.t)
  : M unit := fun '(self, w) =>
  (Returns tt,
  (with_metrics_collector (record (metrics_collector self)) self, w)).

(** [self._real_service.<method>(...)]; on [None] the attribute access
    raises. *)
Definition on_store {A} (name : StoreMethod) (method : Method S A) : M A :=
  fun '(self, w) =>
  match _real_service self with
  | None =>
    (Raises (AttributeError "'NoneType' object has no such attribute"),
     (self, w))
  | Some s =>
    let '(r, s', w') := method s w in
    let raised := match r with Raises e => Some e | Returns _ => None end in
    (r, (called (StoreCall name raised)
           (with_real_service (Some s') self), w'))
  end.

(** ** The methods *)

(** Lazy loading of the real service.  The service returned is the one
    now held in [_real_service]; later calls on it go through
    [on_store]. *)
Definition _get_real_service : M unit := fun '(self, w) =>
  match _real_service self with
  | None =>
    (Returns tt,
     (called StoreCreated
        (with_real_service (Some (new_service (config self))) self), w))
  | Some _ => (Returns tt, (self, w))
  end.

Definition _check_permissions (operation : string) : M bool :=
  fun '(self, w) =>
  (Returns (UserPermissions.has_permission (user_permissions self) operation),
  (self, w)).

Definition connect : M bool :=
  _get_real_service ;;
  success <- on_store store_connect svc_connect ;;
  uid <- user ;;
  audit (AuditLogger.log_connection uid success) ;;
  (if success then metric MetricsCollector.record_connection
  else Py.ret tt) ;;
  Py.ret success.

Definition disconnect : M bool := fun '(self, w) =>
  match _real_service self with
  | None => (Returns true, (self, w))
  | Some _ => on_store store_disconnect svc_disconnect (self, w)
  end.

Definition permission_denied (query : string) : M Exception :=
  uid <- user ;;
  Py.ret (PermissionError
          (String.append "User "
             (String.append uid
                (String.append " does not have permission to execute: "
                   query)))).

(** The block both [execute_query] and [execute_update] run before
    touching the store: get the real service, connect it if needed. *)
Definition ensure_connection : M unit :=
  _get_real_service ;;
  connected <- on_store store_is_connected svc_is_connected ;;
  if negb connected then
  ok <- connect ;;
  if negb ok then Py.raise (RuntimeError "Failed to connect to database")
  else Py.ret tt
  else Py.ret tt.

Definition is_select (query : string) : bool :=
  PyStr.startswith (PyStr.strip (PyStr.lower query)) "select".

Definition execute_query (query : string) : M QueryResult :=
  allowed <- _check_permissions query ;;
  if negb allowed then
  e <- permission_denied query ;; Py.raise e
  else
  cached_result <- cache_lookup query ;;
  match cached_result with
  | Some r =>
      metric MetricsCollector.record_cache_hit ;;
      uid <- user ;;
      audit (AuditLogger.log_query uid query (PyQueryResult r)) ;;
      Py.ret r
  | None =>
      metric MetricsCollector.record_cache_miss ;;
      ensure_connection ;;
      start_time <- time_time ;;
      Py.try_except
        (result <- on_store (store_execute_query query)
                     (svc_execute_query query) ;;
         t_end <- time_time ;;
         metric (MetricsCollector.record_query (t_end - start_time)) ;;
         (if is_select query then cache_store query result
          else Py.ret tt) ;;
         uid <- user ;;
         audit (AuditLogger.log_query uid query (PyQueryResult result)) ;;
         Py.ret result)
        (fun e =>
           uid <- user ;;
           audit (AuditLogger.log_query uid query PyNone) ;;
           Py.raise e)
  end.

Definition execute_update (query : string) : M Z :=
  allowed <- _check_permissions query ;;
  if negb allowed then
  e <- permission_denied query ;; Py.raise e
  else
  ensure_connection ;;
  start_time <- time_time ;;
  Py.try_except
    (result <- on_store (store_execute_update query)
                 (svc_execute_update query) ;;
     (if negb (is_select query) then cache_reset else Py.ret tt) ;;
     t_end <- time_time ;;
     metric (MetricsCollector.record_query (t_end - start_time)) ;;
     uid <- user ;;
     audit (AuditLogger.log_query uid query (PyInt result)) ;;
     Py.ret result)
    (fun e =>
       uid <- user ;;
       audit (AuditLogger.log_query uid query PyNone) ;;
       Py.raise e).

Definition begin_transaction : M bool := fun '(self, w) =>
  (match _real_service self with
  | None =>
     _get_real_service ;;
     ok <- connect ;;
     if negb ok then Py.ret false
     else
       success <- on_store store_begin_transaction svc_begin_transaction ;;
       (if success then
          uid <- user ;; audit (AuditLogger.log_transaction uid "BEGIN")
        else Py.ret tt) ;;
       Py.ret success
  | Some _ =>
     success <- on_store store_begin_transaction svc_begin_transaction ;;
     (if success then
        uid <- user ;; audit (AuditLogger.log_transaction uid "BEGIN")
      else Py.ret tt) ;;
     Py.ret success
  end) (self, w).

Definition commit_transaction : M bool := fun '(self, w) =>
  match _real_service self with
  | None => (Returns false, (self, w))
  | Some _ =>
    (success <- on_store store_commit_transaction
                  svc_commit_transaction ;;
     (if success then
        uid <- user ;;
        audit (AuditLogger.log_transaction uid "COMMIT") ;;
        cache_reset
      else Py.ret tt) ;;
     Py.ret success) (self, w)
  end.

Definition rollback_transaction : M bool := fun '(self, w) =>
  match _real_service self with
  | None => (Returns false, (self, w))
  | Some _ =>
    (success <- on_store store_rollback_transaction
                  svc_rollback_transaction ;;
     (if success then
        uid <- user ;;
        audit (AuditLogger.log_transaction uid "ROLLBACK")
      else Py.ret tt) ;;
     Py.ret success) (self, w)
  end.

Definition is_connected : M bool := fun '(self, w) =>
  match _real_service self with
  | None => (Returns false, (self, w))
  | Some _ => on_store store_is_connected svc_is_connected (self, w)
  end.

Definition get_audit_trail (self : t) : list AuditLogger.LogEntry :=
  AuditLogger.get_audit_trail
  (UserPermissions.user_id (user_permissions self)) (audit_logger self).

End WithStore.

Arguments t : clear implicits.
Arguments M : clear implicits.
End DatabaseProxy.

(* ------------------------------------------------------------------ *)
(** * Clients and fixtures *)

(** A client drives a cache through its three public methods. *)
Module CacheClient.

Inductive Op : Type :=
  | Get (query : string)
  | Put (query : string) (result : QueryResult)
  | Clear.

Definition step (st : QueryCache.t * World) (op : Op)
  : QueryCache.t * World :=
  let (c, w) := st in
  match op with
  | Get q => let '(_, c', w') := QueryCache.get q c w in (c', w')
  | Put q r => QueryCache.put q r c w
  | Clear => (QueryCache.clear c, w)
  end.

Definition run (ops : list Op) (st : QueryCache.t * World)
  : QueryCache.t * World :=
  fold_left step ops st.

End CacheClient.

(** The proxy holds a service with an open transaction. *)
Definition transaction_open (self : DatabaseProxy.t RealDatabaseService.t)
  : bool :=
  match DatabaseProxy._real_service self with
  | Some s => RealDatabaseService._in_transaction s
  | None => false
  end.

(** A store that is connected from the start and rejects every query and
    update: a test double for the failure paths of the proxy. *)
Module RejectingStore.

Definition t : Type := unit.

Definition rejected : Exception :=
  OtherError "OperationalError" "statement rejected".

Definition yes : Method t bool := fun self w => (Returns true, self, w).

Definition reject {A : Type} : Method t A := fun self w =>
  (Raises rejected, self, w).

End RejectingStore.

Definition RejectingStore_service : DatabaseService RejectingStore.t :=
  {| svc_connect := RejectingStore.yes;
     svc_disconnect := RejectingStore.yes;
     svc_execute_query := fun _ => RejectingStore.reject;
     svc_execute_update := fun _ => RejectingStore.reject;
     svc_begin_transaction := RejectingStore.yes;
     svc_commit_transaction := RejectingStore.yes;
     svc_rollback_transaction := RejectingStore.yes;
     svc_is_connected := RejectingStore.yes |}.

(** The configuration and the users of [main], and runs of the proxy on
    them. *)
Module Demo.

Definition db_config : DatabaseConfig :=
  {| host := "localhost"; port := 5432; database := "ecommerce";
     username := "app_user"; password := "secret123";
     max_connections := 10; connection_timeout := 30 |}.

Definition admin_permissions : UserPermissions.t :=
  {| UserPermissions.user_id := "admin_user";
     UserPermissions.permissions := [ADMIN] |}.

Definition regular_permissions : UserPermissions.t :=
  {| UserPermissions.user_id := "regular_user";
     UserPermissions.permissions := [SELECT; INSERT; UPDATE] |}.

Definition readonly_permissions : UserPermissions.t :=
  {| UserPermissions.user_id := "readonly_user";
     UserPermissions.permissions := [SELECT] |}.

(** A world whose clock advances [pace] microseconds per reading and whose
    generator always draws one half: no connection attempt fails. *)
Definition paced_world (pace : Z) : World :=
  {| clock := fun n => pace * Z.of_nat n; ticks := 0;
     rng := fun _ => 2 ^ 52; draws := 0 |}.

Definition world : World := paced_world 1000.

Definition state : Type := (DatabaseProxy.t RealDatabaseService.t * World)%type.

(** A proxy just created for [u]. *)
Definition fresh (u : UserPermissions.t) : state :=
  (DatabaseProxy.init db_config u, world).

Definition execute_query (query : string) (st : state) :=
  DatabaseProxy.execute_query RealDatabaseService.init query st.
Definition execute_update (query : string) (st : state) :=
  DatabaseProxy.execute_update RealDatabaseService.init query st.
Definition begin_transaction (st : state) :=
  DatabaseProxy.begin_transaction RealDatabaseService.init st.
Definition commit_transaction (st : state) :=
  DatabaseProxy.commit_transaction st.
Definition rollback_transaction (st : state) :=
  DatabaseProxy.rollback_transaction st.

(** The admin's proxy after one read of the products. *)
Definition warm : state :=
  snd (execute_query "SELECT * FROM products" (fresh admin_permissions)).

(** The admin's proxy after one read and the start of a transaction. *)
Definition in_transaction : state := snd (begin_transaction warm).

(** A proxy in front of a store that rejects every statement. *)
Definition rejecting : DatabaseProxy.t RejectingStore.t * World :=
  (DatabaseProxy.init db_config admin_permissions, world).

Definition execute_query_rejected (query : string) :=
  DatabaseProxy.execute_query (svc := RejectingStore_service)
    (fun _ => tt) query rejecting.

Definition result (n : Z) : QueryResult :=
  {| rows := []; affected_rows := n; execution_time := 0; timestamp := 0 |}.

(** The capacity scenario: a cache for two entries, A and B stored, then A
    read again. *)
Definition two_entries : QueryCache.t * World :=
  CacheClient.run
    [CacheClient.Put "SELECT A" (result 1);
     CacheClient.Put "SELECT B" (result 2);
     CacheClient.Get "SELECT A"]
    (QueryCache.init 2 300, world).


(** The value a call returned, or [default] when it raised. *)
Definition value {A : Type} (default : A) (o : Outcome A) : A :=
  match o with Returns a => a | Raises _ => default end.

Definition users_query : string := "SELECT * FROM users".
Definition users_query_again : string := "select * from users  ".
Definition price_update : string :=
  "UPDATE products SET price = 999.99 WHERE id = 1".
Definition profile_update : string :=
  "UPDATE users SET name = 'Carol Updated' WHERE id = 3".

(** The admin's first read of the users, and the result it returned. *)
Definition first_read : Outcome QueryResult * state :=
  execute_query users_query (fresh admin_permissions).


(** Statements sent through [execute_update] after one read: a SELECT text,
    and an UPDATE. *)
Definition select_as_update : Outcome Z * state :=
  execute_update "SELECT * FROM products" warm.

Definition after_price_update : Outcome Z * state :=
  execute_update price_update warm.

(** The read-only user's attempt to update a profile. *)
Definition refused_update : Outcome Z * state :=
  execute_update profile_update (fresh readonly_permissions).

(** A read through the proxy in front of the rejecting store. *)
Definition rejected_read : Outcome QueryResult * (DatabaseProxy.t RejectingStore.t * World) :=
  execute_query_rejected users_query.




End Demo.

(* ------------------------------------------------------------------ *)
(** * [DatabaseClient], on a proxy *)

Module DatabaseClient.
Section WithStore.
Context {S : Type} {svc : DatabaseService S}.
Context (new_service : DatabaseConfig -> S).

Local Open Scope py_scope.

(** [f"{x}"] for [x = data.get(key)], the fields of a profile being texts:
    the text itself, or [None] printed. *)
Definition format_field (x : option string) : string :=
  match x with Some text => text | None => "None"%string end.

Definition user_data_query (user_id : string) : string :=
  String.append "SELECT * FROM users WHERE id = " user_id.

Definition profile_update_query (user_id : string) (data : PyDict.dict string)
  : string :=
  String.append "UPDATE users SET name = '"
    (String.append (format_field (PyDict.get "name" data))
       (String.append "' WHERE id = " user_id)).

Definition fetch_user_data (user_id : string) : DatabaseProxy.M S (list Row) :=
  result <- DatabaseProxy.execute_query new_service (user_data_query user_id) ;;
  Py.ret (rows result).

Definition fetch_all_users : DatabaseProxy.M S (list Row) :=
  result <- DatabaseProxy.execute_query new_service "SELECT * FROM users" ;;
  Py.ret (rows result).

Definition update_user_profile (user_id : string) (data : PyDict.dict string)
  : DatabaseProxy.M S bool :=
  affected_rows <- DatabaseProxy.execute_update new_service
                     (profile_update_query user_id data) ;;
  Py.ret (affected_rows >? 0).

End WithStore.
End DatabaseClient.

(** A caller drives a proxy through its public methods, whatever they
    return or raise. *)
Module ProxyClient.

Inductive Op : Type :=
| Connect
| Disconnect
| ExecuteQuery (query : string)
| ExecuteUpdate (query : string)
| BeginTransaction
| CommitTransaction
| RollbackTransaction
| IsConnected.

Section WithStore.
Context {S : Type} {svc : DatabaseService S}.
Context (new_service : DatabaseConfig -> S).

Definition step (st : DatabaseProxy.t S * World) (op : Op)
  : DatabaseProxy.t S * World :=
  match op with
  | Connect => snd (DatabaseProxy.connect new_service st)
  | Disconnect => snd (DatabaseProxy.disconnect st)
  | ExecuteQuery q => snd (DatabaseProxy.execute_query new_service q st)
  | ExecuteUpdate q => snd (DatabaseProxy.execute_update new_service q st)
  | BeginTransaction => snd (DatabaseProxy.begin_transaction new_service st)
  | CommitTransaction => snd (DatabaseProxy.commit_transaction st)
  | RollbackTransaction => snd (DatabaseProxy.rollback_transaction st)
  | IsConnected => snd (DatabaseProxy.is_connected st)
  end.

Definition run (ops : list Op) (st : DatabaseProxy.t S * World)
  : DatabaseProxy.t S * World :=
  fold_left step ops st.

End WithStore.
End ProxyClient.

(* ------------------------------------------------------------------ *)
(** * Vocabulary of the properties *)

(** The keys of a dictionary after [d[k] = v] and after [del d[k]]. *)
Definition keys_after_set (k : string) (ks : list string) : list string :=
  if existsb (String.eqb k) ks then ks else ks ++ [k].

Definition keys_after_del (k : string) (ks : list string) : list string :=
  filter (fun k' => negb (String.eqb k k')) ks.

(** The two dictionaries of a cache hold the same keys in the same order,
    each key once. *)
Definition consistent (c : QueryCache.t) : Prop :=
  PyDict.keys (QueryCache._cache c) = PyDict.keys (QueryCache._access_times c)
  /\ PyDict.wf (QueryCache._cache c).

(** The first step of [put]: evict when the cache is full. *)
Definition make_room (c : QueryCache.t) : QueryCache.t :=
  if PyDict.len (QueryCache._cache c) >=? QueryCache.max_size c
  then QueryCache._evict_oldest c else c.

(** The entry [log_query] appends. *)
Definition query_entry (ts : Z) (uid query : string) (ok : bool) (n : Z)
  : AuditLogger.LogEntry :=
  {| AuditLogger.timestamp := ts; AuditLogger.user_id := uid;
     AuditLogger.operation := "QUERY"; AuditLogger.query := Some query;
     AuditLogger.success := ok; AuditLogger.rows_returned := Some n |}.

(** An entry [log_connection] appends. *)
Definition is_connection_entry (e : AuditLogger.LogEntry) : Prop :=
  AuditLogger.operation e = "CONNECTION"%string.

(** The entries [log_connection] and [log_transaction] append. *)
Definition connection_entry (ts : Z) (uid : string) (ok : bool)
  : AuditLogger.LogEntry :=
  {| AuditLogger.timestamp := ts; AuditLogger.user_id := uid;
     AuditLogger.operation := "CONNECTION"; AuditLogger.query := None;
     AuditLogger.success := ok; AuditLogger.rows_returned := None |}.

Definition transaction_entry (ts : Z) (uid operation : string)
  : AuditLogger.LogEntry :=
  {| AuditLogger.timestamp := ts; AuditLogger.user_id := uid;
     AuditLogger.operation := String.append "TRANSACTION_" operation;
     AuditLogger.query := None;
     AuditLogger.success := true; AuditLogger.rows_returned := None |}.

(** How often the real service was created, by the record of calls. *)
Definition is_creation (c : Call) : bool :=
  match c with StoreCreated => true | _ => false end.

Definition creations (cs : list Call) : nat :=
  List.length (filter is_creation cs).

(** A text of whitespace only. *)
Fixpoint all_space (s : string) : bool :=
  match s with
  | EmptyString => true
  | String c s' => PyStr.isspace c && all_space s'
  end.

(** The real service of a proxy is there and connected. *)
Definition service_connected (self : DatabaseProxy.t RealDatabaseService.t)
  : bool :=
  match DatabaseProxy._real_service self with
  | Some s => RealDatabaseService._connected s
  | None => false
  end.

(** A property of the proxy object that a computation keeps, whatever it
    returns or raises. *)
Definition preserves {S A : Type} (P : DatabaseProxy.t S -> Prop)
    (m : DatabaseProxy.M S A) : Prop :=
  forall self w, P self -> P (fst (snd (m (self, w)))).

(** The real service is there exactly when it was created, once. *)
Definition lazily_created {S : Type} (self : DatabaseProxy.t S) : Prop :=
  match DatabaseProxy._real_service self with
  | None => creations (DatabaseProxy.calls self) = 0%nat
  | Some _ => creations (DatabaseProxy.calls self) = 1%nat
  end.

(** The cache of a proxy is consistent and holds at most fifty entries. *)
Definition cache_in_bounds {S : Type} (self : DatabaseProxy.t S) : Prop :=
  consistent (DatabaseProxy.query_cache self) /\
  PyDict.len (QueryCache._cache (DatabaseProxy.query_cache self)) <= 50 /\
  QueryCache.max_size (DatabaseProxy.query_cache self) = 50.

(** The audit log of a proxy begins with [l0]. *)
Definition log_extends {S : Type} (l0 : list AuditLogger.LogEntry)
    (self : DatabaseProxy.t S) : Prop :=
  exists suffix,
    AuditLogger._logs (DatabaseProxy.audit_logger self) = l0 ++ suffix.

(** The proxy works for [u], and every entry of its log names [u]. *)
Definition logged_by {S : Type} (u : UserPermissions.t)
    (self : DatabaseProxy.t S) : Prop :=
  DatabaseProxy.user_permissions self = u /\
  Forall (fun e => AuditLogger.user_id e = UserPermissions.user_id u)
    (AuditLogger._logs (DatabaseProxy.audit_logger self)).

(** No counter of a proxy is below its value in [m0]. *)
Definition counters_from {S : Type} (m0 : MetricsCollector.t)
    (self : DatabaseProxy.t S) : Prop :=
  MetricsCollector.query_count m0
  <= MetricsCollector.query_count (DatabaseProxy.metrics_collector self) /\
  MetricsCollector.cache_hits m0
  <= MetricsCollector.cache_hits (DatabaseProxy.metrics_collector self) /\
  MetricsCollector.cache_misses m0
  <= MetricsCollector.cache_misses (DatabaseProxy.metrics_collector self) /\
  MetricsCollector.connection_count m0
  <= MetricsCollector.connection_count (DatabaseProxy.metrics_collector self).

(** The next draw of the generator makes [connect] fail. *)
Definition connection_will_fail (w : World) : Prop :=
  fst (random_below_tenth w) = true.

(** The keywords of [has_permission], each with the capability it asks
    for. *)
Definition keyword_capabilities : list (string * PermissionType) :=
  [("SELECT", SELECT); ("INSERT", INSERT); ("UPDATE", UPDATE);
   ("DELETE", DELETE); ("CREATE", DDL); ("ALTER", DDL); ("DROP", DDL)]%string.

(** A cache built for [capacity] entries: consistent, and holding at most
    that many, or one when the capacity is below one. *)
Definition within (capacity : Z) (c : QueryCache.t) : Prop :=
  consistent c /\
  PyDict.len (QueryCache._cache c) <= Z.max 1 capacity /\
  QueryCache.max_size c = capacity.

(** [n] calls of [begin_transaction] in a row on the real service. *)
Fixpoint begin_times (n : nat) (s : RealDatabaseService.t) (w : World)
  : RealDatabaseService.t :=
  match n with
  | O => s
  | S n' =>
      begin_times n' (snd (fst (RealDatabaseService.begin_transaction s w))) w
  end.

(** More runs of the proxy and of the real service: an outage, in which
    every connection attempt fails, and what the client does. *)
Module Scenario.

Definition outage : World :=
  {| clock := fun n => 1000 * Z.of_nat n; ticks := 0;
     rng := fun _ => 0; draws := 0 |}.

Definition connected_service : RealDatabaseService.t :=
  RealDatabaseService.with_connected true (Some 0)
    (RealDatabaseService.init Demo.db_config).

Definition service_in_transaction : RealDatabaseService.t :=
  RealDatabaseService.with_in_transaction true connected_service.

Definition profile : PyDict.dict string :=
  [("name", "Carol Updated")]%string.

(** The admin's update and read while the database cannot be reached. *)
Definition unreachable : Demo.state :=
  (DatabaseProxy.init Demo.db_config Demo.admin_permissions, outage).

Definition failed_update : Outcome Z * Demo.state :=
  Demo.execute_update Demo.price_update unreachable.

Definition failed_read : Outcome QueryResult * Demo.state :=
  Demo.execute_query Demo.users_query unreachable.

(** The admin reads the products again after the price update. *)
Definition read_after_update : Outcome QueryResult * Demo.state :=
  Demo.execute_query "SELECT * FROM products" (snd Demo.after_price_update).

(** The admin reads the users a second time, in other letters. *)
Definition second_read : Outcome QueryResult * Demo.state :=
  Demo.execute_query Demo.users_query_again (snd Demo.first_read).

(** The admin connects again after the first read. *)
Definition reconnect : Outcome bool * Demo.state :=
  DatabaseProxy.connect RealDatabaseService.init Demo.warm.

(** The client updates a profile, as the admin and as the read-only user. *)
Definition client_update : Outcome bool * Demo.state :=
  DatabaseClient.update_user_profile RealDatabaseService.init "3" profile
    Demo.warm.

Definition refused_client_update : Outcome bool * Demo.state :=
  DatabaseClient.update_user_profile RealDatabaseService.init "3" profile
    (Demo.fresh Demo.readonly_permissions).

End Scenario.

(* ------------------------------------------------------------------ *)
(** * Proof automation *)

(** Project out of the cache setters. *)
Ltac fields :=
  cbn [QueryCache._cache QueryCache._access_times QueryCache.max_size
       QueryCache.ttl_seconds QueryCache.with_cache
       QueryCache.with_access_times fst snd] in *.

(** Expose the steps of a proxy method. *)
Ltac unfold_proxy :=
  cbv [DatabaseProxy.execute_query DatabaseProxy.execute_update
       DatabaseProxy.commit_transaction DatabaseProxy.rollback_transaction
       DatabaseProxy.begin_transaction DatabaseProxy.connect
       DatabaseProxy.ensure_connection DatabaseProxy.permission_denied
       DatabaseProxy._check_permissions DatabaseProxy._get_real_service
       DatabaseProxy.on_store DatabaseProxy.audit DatabaseProxy.metric
       DatabaseProxy.cache_lookup DatabaseProxy.cache_store
       DatabaseProxy.cache_reset DatabaseProxy.user DatabaseProxy.time_time
       Py.bind Py.ret Py.raise Py.try_except] in *.

(** Split on the innermost test the run in [H] is waiting for. *)
Ltac break_hyp H :=
  match type of H with
  | context [match ?x with _ => _ end] =>
      lazymatch x with
      | context [match _ with _ => _ end] => fail
      | _ => destruct x eqn:?
      end
  | context [if ?x then _ else _] =>
      lazymatch x with
      | context [match _ with _ => _ end] => fail
      | context [if _ then _ else _] => fail
      | _ => destruct x eqn:?
      end
  end.

(** Follow a run to each of its ends. *)
Ltac run_to_ends H :=
  unfold_proxy; repeat (break_hyp H; cbn in H; try discriminate H).

(* ================================================================== *)
(** * Properties *)

(** ** Checks of the library models against known values *)

Example md5_empty :
  MD5.hexdigest (PyStr.encode "") = "d41d8cd98f00b204e9800998ecf8427e"%string.
Proof. vm_compute. reflexivity. Qed.

Example md5_abc :
  MD5.hexdigest (PyStr.encode "abc") = "900150983cd24fb0d6963f7d28e17f72"%string.
Proof. vm_compute. reflexivity. Qed.

Example md5_select :
  MD5.hexdigest (PyStr.encode "select * from users")
  = "19a1f14efc0f221d30afcb1e1344bebd"%string.
Proof. vm_compute. reflexivity. Qed.

Example md5_two_blocks :
  MD5.hexdigest (PyStr.encode "aaaaaaaaaaaaaaaaaaaaaaaaaaaaaaaaaaaaaaaaaaaaaaaaaaaaaaaa")
  = "3b0c8ac703f828b04c6c197006d17218"%string.
Proof. vm_compute. reflexivity. Qed.

Example strip_both_sides :
  PyStr.strip (PyStr.lower "  SELECT * FROM Users 	 ") = "select * from users"%string.
Proof. reflexivity. Qed.

Example latin1_two_byte_encoding :
  PyStr.encode (String (PyStr.chr 233) EmptyString) = [195; 169].
Proof. reflexivity. Qed.

(** ** Dictionaries *)

Section DictFacts.
Context {V : Type}.
Implicit Types (d : PyDict.dict V) (k : string) (v : V).

Lemma dict_get_set_same k v d : PyDict.get k (PyDict.set k v d) = Some v.
Proof.
  induction d as [| [k' v'] d IH]; cbn.
  - now rewrite String.eqb_refl.
  - destruct (String.eqb k k') eqn:E; cbn; rewrite E; [reflexivity | exact IH].
Qed.

Lemma dict_get_set_other k k' v d :
  k' <> k -> PyDict.get k' (PyDict.set k v d) = PyDict.get k' d.
Proof.
  intros Hne. apply String.eqb_neq in Hne.
  induction d as [| [k0 v0] d IH]; cbn.
  - now rewrite Hne.
  - destruct (String.eqb k k0) eqn:E; cbn.
    + apply String.eqb_eq in E. subst k0. now rewrite Hne.
    + now rewrite IH.
Qed.

Lemma dict_get_del_same k d : PyDict.get k (PyDict.del k d) = None.
Proof.
  induction d as [| [k' v'] d IH]; cbn; [reflexivity |].
  destruct (String.eqb k k') eqn:E; cbn; [exact IH | now rewrite E].
Qed.

Lemma dict_get_del_other k k' d :
  k' <> k -> PyDict.get k' (PyDict.del k d) = PyDict.get k' d.
Proof.
  intros Hne. induction d as [| [k0 v0] d IH]; cbn; [reflexivity |].
  destruct (String.eqb k k0) eqn:E; cbn.
  - apply String.eqb_eq in E. subst k0.
    apply String.eqb_neq in Hne. now rewrite Hne.
  - now rewrite IH.
Qed.

Lemma dict_get_del_sub k k' v d :
  PyDict.get k' (PyDict.del k d) = Some v -> PyDict.get k' d = Some v.
Proof.
  destruct (string_dec k' k) as [-> | Hne].
  - now rewrite dict_get_del_same.
  - now rewrite dict_get_del_other.
Qed.

Lemma dict_get_mem k v d : PyDict.get k d = Some v -> PyDict.mem k d = true.
Proof. unfold PyDict.mem. now intros ->. Qed.

Lemma dict_mem_In k d : PyDict.mem k d = true <-> In k (PyDict.keys d).
Proof.
  unfold PyDict.mem. induction d as [| [k' v'] d IH]; cbn.
  - split; [discriminate | tauto].
  - destruct (String.eqb k k') eqn:E.
    + apply String.eqb_eq in E. subst. tauto.
    + apply String.eqb_neq in E. rewrite IH. split; [tauto |].
      intros [H | H]; [congruence | exact H].
Qed.

Lemma dict_get_In k v d :
  PyDict.wf d -> In (k, v) d -> PyDict.get k d = Some v.
Proof.
  unfold PyDict.wf. induction d as [| [k' v'] d IH]; cbn; [tauto |].
  intros Hnd [H | H]; inversion Hnd; subst.
  - inversion H; subst. now rewrite String.eqb_refl.
  - destruct (String.eqb k k') eqn:E; [| now apply IH].
    apply String.eqb_eq in E. subst k'.
    exfalso. apply H2. change (In (fst (k, v)) (map fst d)). now apply in_map.
Qed.

Lemma dict_keys_set k v d :
  PyDict.keys (PyDict.set k v d) = keys_after_set k (PyDict.keys d).
Proof.
  unfold keys_after_set, PyDict.keys.
  induction d as [| [k' v'] d IH]; cbn; [reflexivity |].
  destruct (String.eqb k k') eqn:E; cbn; [reflexivity |].
  rewrite IH. now destruct (existsb (String.eqb k) (map fst d)).
Qed.

Lemma dict_keys_del k d :
  PyDict.keys (PyDict.del k d) = keys_after_del k (PyDict.keys d).
Proof.
  unfold keys_after_del, PyDict.keys.
  induction d as [| [k' v'] d IH]; cbn; [reflexivity |].
  destruct (String.eqb k k') eqn:E; cbn; [exact IH | now rewrite IH].
Qed.

Lemma dict_len_keys d : PyDict.len d = Z.of_nat (List.length (PyDict.keys d)).
Proof. unfold PyDict.len, PyDict.keys. now rewrite length_map. Qed.
End DictFacts.

Lemma keys_after_set_NoDup k ks : NoDup ks -> NoDup (keys_after_set k ks).
Proof.
  intros H. unfold keys_after_set.
  destruct (existsb (String.eqb k) ks) eqn:E; [exact H |].
  apply NoDup_app; [exact H | repeat constructor; cbn; tauto |].
  intros x Hx [Hk | []]. subst x.
  assert (existsb (String.eqb k) ks = true); [| congruence].
  apply existsb_exists. exists k. split; [exact Hx | apply String.eqb_refl].
Qed.

Lemma keys_after_set_present k ks : In k ks -> keys_after_set k ks = ks.
Proof.
  intros H. unfold keys_after_set.
  replace (existsb (String.eqb k) ks) with true; [reflexivity |].
  symmetry. apply existsb_exists. exists k.
  split; [exact H | apply String.eqb_refl].
Qed.

Lemma keys_after_set_length k ks :
  (List.length (keys_after_set k ks) <= S (List.length ks))%nat.
Proof.
  unfold keys_after_set. destruct (existsb (String.eqb k) ks).
  - lia.
  - rewrite length_app. cbn. lia.
Qed.

Lemma keys_after_del_NoDup k ks : NoDup ks -> NoDup (keys_after_del k ks).
Proof. apply NoDup_filter. Qed.

Lemma keys_after_del_length k ks :
  NoDup ks -> In k ks -> S (List.length (keys_after_del k ks)) = List.length ks.
Proof.
  unfold keys_after_del. induction ks as [| k' ks IH]; cbn; [tauto |].
  intros Hnd Hin. inversion Hnd; subst.
  destruct (String.eqb k k') eqn:E; cbn.
  - apply String.eqb_eq in E. subst k'. f_equal.
    clear IH Hin Hnd. induction ks as [| x ks IH]; cbn; [reflexivity |].
    inversion H2; subst.
    destruct (String.eqb k x) eqn:E; cbn.
    + apply String.eqb_eq in E. subst. exfalso. apply H1. now left.
    + f_equal. apply IH; [| exact H4]. intro. apply H1. now right.
  - f_equal. apply IH; [exact H2 |].
    destruct Hin as [-> | Hin]; [| exact Hin].
    now rewrite String.eqb_refl in E.
Qed.

(** [min] returns one of the keys; no key has a smaller sort value, and the
    keys before it have a strictly larger one. *)
Lemma py_min_from_first (f : string -> Z) :
  forall ks p1 best p2,
    (forall k, In k p1 -> f best < f k) ->
    (forall k, In k p2 -> f best <= f k) ->
    exists l1 l2,
      p1 ++ best :: p2 ++ ks = l1 ++ py_min_from f best ks :: l2 /\
      (forall k, In k l1 -> f (py_min_from f best ks) < f k) /\
      (forall k, In k l2 -> f (py_min_from f best ks) <= f k).
Proof.
  induction ks as [| k ks IH]; intros p1 best p2 H1 H2; cbn.
  - exists p1, p2. rewrite app_nil_r. auto.
  - destruct (Z.ltb_spec (f k) (f best)) as [Hlt | Hge].
    + destruct (IH (p1 ++ best :: p2) k []) as (l1 & l2 & E & Hl1 & Hl2).
      * intros x Hx. apply in_app_or in Hx.
        destruct Hx as [Hx | [<- | Hx]];
          [specialize (H1 _ Hx) | | specialize (H2 _ Hx)]; lia.
      * intros x [].
      * exists l1, l2. rewrite <- E. cbn. rewrite <- app_assoc. cbn. auto.
    + destruct (IH p1 best (p2 ++ [k])) as (l1 & l2 & E & Hl1 & Hl2).
      * exact H1.
      * intros x Hx. apply in_app_or in Hx.
        destruct Hx as [Hx | [<- | []]]; [now apply H2 | lia].
      * exists l1, l2. rewrite <- E. rewrite <- app_assoc. cbn. auto.
Qed.

(** ** The permission gate *)

Lemma holds_In (p : PermissionType) (u : UserPermissions.t) :
  In p (UserPermissions.permissions u) -> UserPermissions.holds p u = true.
Proof.
  intros H. unfold UserPermissions.holds. apply existsb_exists.
  exists p. split; [exact H | destruct p; reflexivity].
Qed.

(** C8.  A credential that holds ADMIN passes every capability test, and the
    permission check returns true for every operation text of one of the
    kinds the gate knows: SELECT, INSERT, UPDATE, DELETE and the schema
    changes CREATE, ALTER and DROP. *)
Theorem admin_passes_every_operation_kind :
  forall u : UserPermissions.t,
    In ADMIN (UserPermissions.permissions u) ->
    UserPermissions.can_execute_select u = true /\
    UserPermissions.can_execute_insert u = true /\
    UserPermissions.can_execute_update u = true /\
    UserPermissions.can_execute_delete u = true /\
    UserPermissions.can_execute_ddl u = true /\
    forall operation keyword : string,
      In keyword ["SELECT"; "INSERT"; "UPDATE"; "DELETE";
                  "CREATE"; "ALTER"; "DROP"]%string ->
      PyStr.startswith (PyStr.upper operation) keyword = true ->
      UserPermissions.has_permission u operation = true.
Proof.
  intros u Hadmin. apply holds_In in Hadmin.
  assert (Hs : UserPermissions.can_execute_select u = true)
    by (unfold UserPermissions.can_execute_select; rewrite Hadmin; apply orb_true_r).
  assert (Hi : UserPermissions.can_execute_insert u = true)
    by (unfold UserPermissions.can_execute_insert; rewrite Hadmin; apply orb_true_r).
  assert (Hu : UserPermissions.can_execute_update u = true)
    by (unfold UserPermissions.can_execute_update; rewrite Hadmin; apply orb_true_r).
  assert (Hd : UserPermissions.can_execute_delete u = true)
    by (unfold UserPermissions.can_execute_delete; rewrite Hadmin; apply orb_true_r).
  assert (Hc : UserPermissions.can_execute_ddl u = true)
    by (unfold UserPermissions.can_execute_ddl; rewrite Hadmin; apply orb_true_r).
  repeat (split; [assumption |]).
  intros operation keyword Hin Hprefix.
  unfold UserPermissions.has_permission, PyStr.startswith_any.
  cbn [existsb].
  destruct (PyStr.startswith (PyStr.upper operation) "SELECT") eqn:E1; [exact Hs |].
  destruct (PyStr.startswith (PyStr.upper operation) "INSERT") eqn:E2; [exact Hi |].
  destruct (PyStr.startswith (PyStr.upper operation) "UPDATE") eqn:E3; [exact Hu |].
  destruct (PyStr.startswith (PyStr.upper operation) "DELETE") eqn:E4; [exact Hd |].
  destruct (PyStr.startswith (PyStr.upper operation) "CREATE") eqn:E5; [exact Hc |].
  destruct (PyStr.startswith (PyStr.upper operation) "ALTER") eqn:E6; [exact Hc |].
  destruct (PyStr.startswith (PyStr.upper operation) "DROP") eqn:E7; [exact Hc |].
  cbn [In] in Hin.
  repeat (destruct Hin as [<- | Hin]; [congruence |]).
  contradiction.
Qed.

Lemma admin_passes_every_operation_kind_witness :
  In ADMIN (UserPermissions.permissions Demo.admin_permissions) /\
  UserPermissions.can_execute_ddl Demo.admin_permissions = true /\
  UserPermissions.has_permission Demo.admin_permissions
    "drop table users" = true.
Proof.
  assert (H : In ADMIN (UserPermissions.permissions Demo.admin_permissions))
    by (simpl; left; reflexivity).
  split; [exact H |].
  destruct (admin_passes_every_operation_kind Demo.admin_permissions H)
    as (_ & _ & _ & _ & Hddl & Hop).
  split; [exact Hddl |].
  apply (Hop "drop table users"%string "DROP"%string).
  - simpl. tauto.
  - reflexivity.
Defined.


Lemma rstrip_cons (c : ascii) (s : string) :
  PyStr.isspace c = false ->
  PyStr.rstrip (String c s) = String c (PyStr.rstrip s).
Proof. intros H. cbn. rewrite H. now destruct (PyStr.rstrip s). Qed.



(** ** The query cache *)

Section CacheFacts.
Import QueryCache.




End CacheFacts.


Section CacheInvariant.
Import QueryCache.

Lemma consistent_set (c : t) k v x :
  consistent c ->
  consistent (with_access_times (PyDict.set k x (_access_times c))
                (with_cache (PyDict.set k v (_cache c)) c)).
Proof.
  intros [Hk Hwf]. split; fields.
  - rewrite !dict_keys_set. now rewrite Hk.
  - unfold PyDict.wf in *. rewrite dict_keys_set.
    now apply keys_after_set_NoDup.
Qed.

Lemma consistent_del (c : t) k :
  consistent c ->
  consistent (with_access_times (PyDict.del k (_access_times c))
                (with_cache (PyDict.del k (_cache c)) c)).
Proof.
  intros [Hk Hwf]. split; fields.
  - rewrite !dict_keys_del. now rewrite Hk.
  - unfold PyDict.wf in *. rewrite dict_keys_del.
    now apply keys_after_del_NoDup.
Qed.

(** What [_evict_oldest] removes from a cache that is not empty. *)
Lemma evict_oldest_spec (c : t) :
  consistent c -> _cache c <> [] ->
  exists victim t_victim before after,
    _access_times c = before ++ (victim, t_victim) :: after /\
    (forall k x, In (k, x) before -> t_victim < x) /\
    (forall k x, In (k, x) after -> t_victim <= x) /\
    _cache (_evict_oldest c) = PyDict.del victim (_cache c) /\
    _access_times (_evict_oldest c) = PyDict.del victim (_access_times c) /\
    In victim (PyDict.keys (_cache c)) /\
    max_size (_evict_oldest c) = max_size c /\
    ttl_seconds (_evict_oldest c) = ttl_seconds c.
Proof.
  intros [Hkeys Hwf] Hne. unfold _evict_oldest.
  destruct (PyDict.keys (_access_times c)) as [| k0 ks] eqn:Ek.
  { destruct (_cache c); [congruence | discriminate]. }
  set (victim := py_min_from (access_time c) k0 ks).
  destruct (py_min_from_first (access_time c) ks [] k0 [])
    as (l1 & l2 & E & Hl1 & Hl2); [intros ? [] | intros ? [] |].
  cbn in E. fold victim in E, Hl1, Hl2.
  assert (Hwf' : PyDict.wf (_access_times c))
    by (unfold PyDict.wf in *; now rewrite Ek, <- Hkeys).
  assert (Hin : In victim (PyDict.keys (_cache c))).
  { rewrite Hkeys, E. apply in_elt. }
  rewrite <- Ek in E. unfold PyDict.keys in E.
  apply map_eq_app in E. destruct E as (before & rest & Ed & Eb & Er).
  destruct rest as [| [v tv] after]; [discriminate |].
  cbn in Er. inversion Er; subst l1 l2. clear Er.
  assert (Hval : forall k x, In (k, x) (_access_times c) -> access_time c k = x).
  { intros k x Hk. unfold access_time. now rewrite (dict_get_In k x _ Hwf' Hk). }
  exists victim, tv, before, after.
  assert (Hv : v = victim) by (cbn in H0; congruence). subst v.
  assert (Htv : access_time c victim = tv).
  { apply Hval. rewrite Ed. apply in_elt. }
  split; [exact Ed |].
  split.
  { intros k x Hk. rewrite <- Htv.
    rewrite <- (Hval k x) by (rewrite Ed; apply in_or_app; now left).
    apply Hl1. change k with (fst (k, x)). now apply in_map. }
  split.
  { intros k x Hk. rewrite <- Htv.
    rewrite <- (Hval k x) by (rewrite Ed; apply in_or_app; right; now right).
    apply Hl2. change k with (fst (k, x)). now apply in_map. }
  pose proof Hin as Hmem. apply dict_mem_In in Hmem. rewrite Hmem. cbn.
  repeat split; try reflexivity. exact Hin.
Qed.

(** A lookup keeps the cache consistent and adds nothing to it. *)
Lemma get_preserves (q : string) (c : t) (w : World) :
  consistent c ->
  let c' := snd (fst (get q c w)) in
  consistent c' /\ PyDict.len (_cache c') <= PyDict.len (_cache c) /\
  max_size c' = max_size c /\ ttl_seconds c' = ttl_seconds c.
Proof.
  intros Hc. unfold get.
  destruct (PyDict.get (_get_cache_key q) (_cache c)) as [[r x] |] eqn:E.
  2: { fields. repeat split; try apply Hc; lia. }
  assert (Hin : In (_get_cache_key q) (PyDict.keys (_access_times c))).
  { destruct Hc as [<- _]. apply dict_mem_In. eapply dict_get_mem, E. }
  cbn [now]. destruct (_ <? _); fields.
  - split; [| repeat split; lia].
    split; fields.
    + rewrite dict_keys_set, keys_after_set_present by exact Hin. apply Hc.
    + apply Hc.
  - apply dict_mem_In in Hin. rewrite Hin. fields.
    split; [apply (consistent_del c _ Hc) |]. repeat split.
    rewrite !dict_len_keys, dict_keys_del. unfold keys_after_del.
    pose proof (filter_length_le
      (fun k' => negb (String.eqb (_get_cache_key q) k'))
      (PyDict.keys (_cache c))).
    lia.
Qed.

Lemma get_adds_nothing (q : string) (c : t) (w : World) k v :
  PyDict.get k (_cache (snd (fst (get q c w)))) = Some v ->
  PyDict.get k (_cache c) = Some v.
Proof.
  unfold get.
  destruct (PyDict.get (_get_cache_key q) (_cache c)) as [[r x] |];
    [| exact (fun H => H)].
  cbn [now]. destruct (_ <? _); fields; [exact (fun H => H) |].
  destruct (PyDict.mem _ _); fields; apply dict_get_del_sub.
Qed.

Lemma put_unfold (q : string) (r : QueryResult) (c : t) (w : World) :
  fst (put q r c w)
  = with_access_times
      (PyDict.set (_get_cache_key q) (clock w (S (ticks w)))
         (_access_times (make_room c)))
      (with_cache
         (PyDict.set (_get_cache_key q) (r, clock w (ticks w))
            (_cache (make_room c)))
         (make_room c)).
Proof. reflexivity. Qed.



Lemma make_room_preserves (c : t) :
  consistent c -> 1 <= max_size c -> PyDict.len (_cache c) <= max_size c ->
  consistent (make_room c) /\
  PyDict.len (_cache (make_room c)) <= max_size c - 1 /\
  max_size (make_room c) = max_size c /\
  ttl_seconds (make_room c) = ttl_seconds c.
Proof.
  intros Hc Hcap Hlen. unfold make_room.
  destruct (Z.geb_spec (PyDict.len (_cache c)) (max_size c)) as [Hfull | Hroom].
  2: { repeat split; try apply Hc; lia. }
  assert (Hne : _cache c <> []).
  { intros E. rewrite E in Hfull. cbn in Hfull. lia. }
  destruct (evict_oldest_spec c Hc Hne)
    as (victim & tv & before & after & _ & _ & _ & Ec & Ea & Hin & Hm & Ht).
  assert (Hc' : consistent (_evict_oldest c)).
  { destruct (consistent_del c victim Hc) as [Hk Hwf]. fields.
    split; [now rewrite Ec, Ea | now rewrite Ec]. }
  repeat split; try apply Hc'; try assumption.
  rewrite Ec, !dict_len_keys, dict_keys_del.
  destruct Hc as [_ Hwf].
  pose proof (keys_after_del_length victim _ Hwf Hin).
  rewrite dict_len_keys in Hlen. lia.
Qed.

Lemma put_preserves (q : string) (r : QueryResult) (c : t) (w : World) :
  consistent c -> 1 <= max_size c -> PyDict.len (_cache c) <= max_size c ->
  let c' := fst (put q r c w) in
  consistent c' /\ PyDict.len (_cache c') <= max_size c /\
  max_size c' = max_size c /\ ttl_seconds c' = ttl_seconds c.
Proof.
  intros Hc Hcap Hlen. cbv zeta. rewrite put_unfold.
  destruct (make_room_preserves c Hc Hcap Hlen) as (Hc1 & Hlen1 & Hm & Ht).
  split; [now apply consistent_set |]. fields.
  repeat split; try assumption.
  rewrite dict_len_keys, dict_keys_set.
  pose proof (keys_after_set_length (_get_cache_key q)
                (PyDict.keys (_cache (make_room c)))).
  rewrite dict_len_keys in Hlen1. lia.
Qed.

(** Every cache a client reaches from a consistent cache of capacity at least
    one is consistent and within its capacity. *)
Lemma run_preserves (ops : list CacheClient.Op) :
  forall (c c' : t) (w w' : World),
    consistent c -> 1 <= max_size c -> PyDict.len (_cache c) <= max_size c ->
    CacheClient.run ops (c, w) = (c', w') ->
    consistent c' /\ PyDict.len (_cache c') <= max_size c' /\
    max_size c' = max_size c /\ ttl_seconds c' = ttl_seconds c.
Proof.
  induction ops as [| op ops IH]; intros c c' w w' Hc Hcap Hlen Hrun.
  - inversion Hrun; subst. auto.
  - change (CacheClient.run ops (CacheClient.step (c, w) op) = (c', w')) in Hrun.
    assert (Hstep : let c1 := fst (CacheClient.step (c, w) op) in
              consistent c1 /\ PyDict.len (_cache c1) <= max_size c /\
              max_size c1 = max_size c /\ ttl_seconds c1 = ttl_seconds c).
    { destruct op as [q | q r |]; cbn [CacheClient.step]; cbv zeta.
      - pose proof (get_preserves q c w Hc) as H. cbv zeta in H.
        destruct (get q c w) as [[res c1] w1]. fields.
        destruct H as (? & ? & ? & ?).
        split; [assumption | split; [lia | split; assumption]].
      - pose proof (put_preserves q r c w Hc Hcap Hlen) as H. cbv zeta in H.
        destruct (put q r c w) as [c1 w1]. fields. exact H.
      - unfold clear. fields. repeat split; try constructor.
        unfold PyDict.len. cbn. lia. }
    cbv zeta in Hstep.
    destruct (CacheClient.step (c, w) op) as [c1 w1]; cbn in Hstep.
    destruct Hstep as (Hc1 & Hlen1 & Hm1 & Ht1).
    destruct (IH c1 c' w1 w' Hc1) as (? & ? & ? & ?); try lia; try exact Hrun.
    split; [assumption | split; [assumption | split; congruence]].
Qed.

(** C3, amended.  A cache created with a capacity of at least one and driven
    through its public methods never holds more than its capacity.  A put
    into such a cache at capacity removes exactly one entry: the victim is
    held by the cache, no entry has a smaller access time, the entries
    inserted before it have a strictly larger one, the victim is gone
    afterwards and every entry under another key is unchanged.  The new entry
    is present with the first clock reading of the put as its insertion time
    and the next reading as its access time. *)
Theorem cache_within_capacity_evicts_least_recent :
  forall (capacity ttl : Z) (ops : list CacheClient.Op)
         (w0 w : World) (c : t),
    1 <= capacity ->
    CacheClient.run ops (init capacity ttl, w0) = (c, w) ->
    PyDict.len (_cache c) <= capacity /\
    forall (q : string) (r : QueryResult),
      PyDict.len (_cache c) >= capacity ->
      exists victim t_victim before after,
        _access_times c = before ++ (victim, t_victim) :: after /\
        (forall k x, In (k, x) before -> t_victim < x) /\
        (forall k x, In (k, x) after -> t_victim <= x) /\
        PyDict.mem victim (_cache c) = true /\
        let c' := fst (put q r c w) in
        let key := _get_cache_key q in
        PyDict.get key (_cache c') = Some (r, clock w (ticks w)) /\
        PyDict.get key (_access_times c') = Some (clock w (S (ticks w))) /\
        (victim <> key ->
         PyDict.get victim (_cache c') = None /\
         PyDict.get victim (_access_times c') = None) /\
        (forall k, k <> victim -> k <> key ->
         PyDict.get k (_cache c') = PyDict.get k (_cache c) /\
         PyDict.get k (_access_times c') = PyDict.get k (_access_times c)) /\
        PyDict.len (_cache c') <= capacity.
Proof.
  intros capacity ttl ops w0 w c Hcap Hrun.
  destruct (run_preserves ops _ _ _ _
              (conj eq_refl (NoDup_nil _) : consistent (init capacity ttl))
              Hcap ltac:(cbn; lia) Hrun) as (Hc & Hlen & Hm & Ht).
  cbn in Hm, Ht. rewrite Hm in Hlen. split; [exact Hlen |].
  intros q r Hfull.
  assert (Hne : _cache c <> []).
  { intros E. rewrite E in Hfull. cbn in Hfull. lia. }
  destruct (evict_oldest_spec c Hc Hne)
    as (victim & tv & before & after & Ed & Hb & Ha & Ec & Ea & Hin & _ & _).
  exists victim, tv, before, after.
  repeat (split; [assumption |]).
  split; [now apply dict_mem_In |].
  cbv zeta. rewrite put_unfold. fields.
  assert (Er : make_room c = _evict_oldest c).
  { unfold make_room. rewrite Hm.
    destruct (Z.geb_spec (PyDict.len (_cache c)) capacity); [reflexivity | lia]. }
  split; [apply dict_get_set_same |].
  split; [apply dict_get_set_same |].
  split.
  { intros Hvk. rewrite !dict_get_set_other by exact Hvk.
    rewrite Er, Ec, Ea. split; apply dict_get_del_same. }
  split.
  { intros k Hk1 Hk2. rewrite !dict_get_set_other by exact Hk2.
    rewrite Er, Ec, Ea. split; apply dict_get_del_other; exact Hk1. }
  pose proof (put_preserves q r c w Hc ltac:(lia) ltac:(lia)) as H.
  cbv zeta in H. rewrite put_unfold in H. fields.
  destruct H as (_ & H & _). lia.
Qed.

End CacheInvariant.

Lemma cache_within_capacity_evicts_least_recent_witness :
  1 <= 2 /\
  PyDict.len (QueryCache._cache (fst Demo.two_entries)) <= 2 /\
  PyDict.len
    (QueryCache._cache
       (fst (QueryCache.put "SELECT C" (Demo.result 3)
               (fst Demo.two_entries) (snd Demo.two_entries)))) <= 2.
Proof.
  assert (Hcap : 1 <= 2) by lia.
  split; [exact Hcap |].
  destruct (cache_within_capacity_evicts_least_recent 2 300
              [CacheClient.Put "SELECT A" (Demo.result 1);
               CacheClient.Put "SELECT B" (Demo.result 2);
               CacheClient.Get "SELECT A"]
              Demo.world (snd Demo.two_entries) (fst Demo.two_entries) Hcap)
    as [Hlen Hput].
  - vm_compute. reflexivity.
  - split; [exact Hlen |].
    destruct (Hput "SELECT C"%string (Demo.result 3))
      as (victim & tv & before & after & _ & _ & _ & _ & H).
    + vm_compute. discriminate.
    + cbv zeta in H. destruct H as (_ & _ & _ & _ & H). exact H.
Defined.

(** C3 as stated fails.  A cache of capacity zero holds one entry after a
    put; and when the clock advances between the two readings a put takes,
    the new entry's insertion time and access time differ. *)
Lemma zero_capacity_cache_overflows :
  PyDict.len
    (QueryCache._cache
       (fst (QueryCache.put "SELECT 1" (Demo.result 1)
               (QueryCache.init 0 300) Demo.world)))
  > QueryCache.max_size (QueryCache.init 0 300) /\
  PyDict.get (QueryCache._get_cache_key "SELECT 1")
    (QueryCache._cache
       (fst (QueryCache.put "SELECT 1" (Demo.result 1)
               (QueryCache.init 2 300) Demo.world)))
  = Some (Demo.result 1, 0) /\
  PyDict.get (QueryCache._get_cache_key "SELECT 1")
    (QueryCache._access_times
       (fst (QueryCache.put "SELECT 1" (Demo.result 1)
               (QueryCache.init 2 300) Demo.world)))
  = Some 1000.
Proof. vm_compute. repeat split. Qed.

(** ** The proxy, in front of any store *)

Lemma trace_tail (l ext pre : list Call) (x : Call) :
  l ++ ext = l ++ pre ++ [x] -> last ext StoreCreated = x /\ ext <> [].
Proof.
  intros H. apply app_inv_head in H. subst ext. split.
  - apply last_last.
  - destruct pre; discriminate.
Qed.

Lemma trace_grows (l pre : list Call) (x : Call) : l = l ++ pre ++ [x] -> False.
Proof.
  intros H. rewrite <- (app_nil_r l) in H at 1.
  apply trace_tail in H. destruct H as [_ H]. now apply H.
Qed.

Section ProxyProperties.
Context {S : Type} {svc : DatabaseService S}.
Variable new_service : DatabaseConfig -> S.

Import DatabaseProxy.

Local Opaque QueryCache.get QueryCache.put.

(** C9.  Whatever the store answers, a rollback leaves the cache exactly as
    it was: both dictionaries, and so every entry and its times. *)
Theorem rollback_keeps_cache :
  forall (self : t S) (w : World),
    query_cache (fst (snd (rollback_transaction (self, w))))
    = query_cache self.
Proof.
  intros self w. unfold_proxy.
  destruct (_real_service self) as [s |] eqn:Es; [| reflexivity].
  destruct (svc_rollback_transaction s w) as [[[[] | e] s'] w']; reflexivity.
Qed.

(** C1, amended.  When the credential lacks the capability for the operation
    text, [execute_query] and [execute_update] raise a permission error and
    leave the proxy and the world exactly as they were: no cache lookup, no
    store call, no metric, and no audit record. *)
Theorem denied_operation_changes_nothing :
  forall (query : string) (self : t S) (w : World),
    UserPermissions.has_permission (user_permissions self) query = false ->
    exists msg,
      execute_query new_service query (self, w)
      = (Raises (PermissionError msg), (self, w)) /\
      execute_update new_service query (self, w)
      = (Raises (PermissionError msg), (self, w)).
Proof.
  intros query self w H. eexists. unfold_proxy. rewrite H. cbn.
  split; reflexivity.
Qed.

(** C10.  When [execute_update] returns, the audit log has grown by at most
    one successful connection entry followed by one query entry for the
    statement, and that query entry has [success = true] and
    [rows_returned = 0] whatever number of affected rows was returned. *)
Theorem update_audit_entry_has_no_row_count :
  forall (query : string) (self self' : t S) (w w' : World) (n : Z),
    execute_update new_service query (self, w) = (Returns n, (self', w')) ->
    exists before ts,
      AuditLogger._logs (audit_logger self')
      = AuditLogger._logs (audit_logger self) ++ before
        ++ [query_entry ts (UserPermissions.user_id (user_permissions self))
              query true 0]
      /\ Forall (fun e => is_connection_entry e /\ AuditLogger.success e = true)
           before.
Proof.
  intros query self self' w w' n H. run_to_ends H.
  all: inversion H; subst; clear H; cbn.
  all: try solve [ exists []; eexists; split; [cbn; reflexivity | constructor] ].
  all: try solve [ eexists [_]; eexists;
                   split; [cbn; rewrite <- app_assoc; reflexivity
                          | repeat constructor] ].
Qed.

(** C2, amended.  After an [execute_update] that returns, the cache is empty
    provided the statement, lower-cased and stripped, does not begin with
    [select]; after a [commit_transaction] that returns true, the cache is
    empty. *)
Theorem write_empties_cache :
  forall (query : string) (self : t S) (w : World),
    (forall n self' w',
        execute_update new_service query (self, w) = (Returns n, (self', w')) ->
        is_select query = false ->
        QueryCache._cache (query_cache self') = [] /\
        QueryCache._access_times (query_cache self') = []) /\
    (forall self' w',
        commit_transaction (self, w) = (Returns true, (self', w')) ->
        QueryCache._cache (query_cache self') = [] /\
        QueryCache._access_times (query_cache self') = []).
Proof.
  intros query self w. split.
  - intros n self' w' H Hsel. unfold_proxy. rewrite Hsel in H.
    repeat (break_hyp H; cbn in H; try discriminate H).
    all: inversion H; subst; clear H; cbn; split; reflexivity.
  - intros self' w' H. run_to_ends H.
    all: inversion H; subst; clear H; cbn; split; reflexivity.
Qed.

(** C7.  When the last call [execute_query] makes is the store's
    [execute_query] and that call raises [e], then [execute_query] raises
    [e]; the audit log has grown by at most one connection entry followed by
    one query entry with [success = false] and [rows_returned = 0]; the cache
    is as the lookup left it, so it holds no entry that was not there before;
    and the query count is unchanged. *)
Theorem store_failure_is_audited_and_propagated :
  forall (query : string) (self self' : t S) (w w' : World)
         (res : Outcome QueryResult) (pre : list Call) (e : Exception),
    execute_query new_service query (self, w) = (res, (self', w')) ->
    calls self'
    = calls self ++ pre ++ [StoreCall (store_execute_query query) (Some e)] ->
    res = Raises e /\
    (exists before ts,
        AuditLogger._logs (audit_logger self')
        = AuditLogger._logs (audit_logger self) ++ before
          ++ [query_entry ts (UserPermissions.user_id (user_permissions self))
                query false 0]
        /\ Forall is_connection_entry before) /\
    query_cache self' = snd (fst (QueryCache.get query (query_cache self) w)) /\
    (forall k v,
        PyDict.get k (QueryCache._cache (query_cache self')) = Some v ->
        PyDict.get k (QueryCache._cache (query_cache self)) = Some v) /\
    MetricsCollector.query_count (metrics_collector self')
    = MetricsCollector.query_count (metrics_collector self).
Proof.
  intros query self self' w w' res pre e H Hcalls.
  assert (Hsub : query_cache self'
                 = snd (fst (QueryCache.get query (query_cache self) w)) ->
                 forall k v,
                   PyDict.get k (QueryCache._cache (query_cache self')) = Some v ->
                   PyDict.get k (QueryCache._cache (query_cache self)) = Some v).
  { intros -> k v. apply get_adds_nothing. }
  unfold_proxy.
  repeat (break_hyp H; cbn in H).
  all: inversion H; subst; clear H; cbn in Hcalls.
  all: try (exfalso; apply trace_grows in Hcalls; exact Hcalls).
  all: repeat rewrite <- app_assoc in Hcalls; cbn [app] in Hcalls.
  all: apply trace_tail in Hcalls; destruct Hcalls as [Hlast _]; cbn in Hlast.
  all: try discriminate Hlast.
  all: inversion Hlast; subst; clear Hlast; cbn in Hsub |- *.
  all: (split; [reflexivity |]).
  all: (split; [| split; [reflexivity | split; [now apply Hsub | reflexivity]]]).
  all: try solve [ exists []; eexists; split; [cbn; reflexivity | constructor] ].
  all: try solve [ eexists [_]; eexists;
                   split; [cbn; rewrite <- app_assoc; reflexivity
                          | repeat constructor] ].
Qed.




End ProxyProperties.

(** ** The proxy in front of the real service *)

(** C6, amended.  With no transaction open on the real service (none was
    begun, or the service was never created), [commit_transaction] and
    [rollback_transaction] return false without raising; they leave the
    world, the cache, the audit log, the metrics and the service as they
    were. *)
Theorem commit_and_rollback_without_transaction_return_false :
  forall (self : DatabaseProxy.t RealDatabaseService.t) (w : World),
    transaction_open self = false ->
    exists self_c self_r,
      DatabaseProxy.commit_transaction (self, w)
      = (Returns false, (self_c, w)) /\
      DatabaseProxy.rollback_transaction (self, w)
      = (Returns false, (self_r, w)) /\
      (DatabaseProxy.query_cache self_c = DatabaseProxy.query_cache self /\
       DatabaseProxy.audit_logger self_c = DatabaseProxy.audit_logger self /\
       DatabaseProxy.metrics_collector self_c
       = DatabaseProxy.metrics_collector self /\
       DatabaseProxy._real_service self_c = DatabaseProxy._real_service self) /\
      (DatabaseProxy.query_cache self_r = DatabaseProxy.query_cache self /\
       DatabaseProxy.audit_logger self_r = DatabaseProxy.audit_logger self /\
       DatabaseProxy.metrics_collector self_r
       = DatabaseProxy.metrics_collector self /\
       DatabaseProxy._real_service self_r = DatabaseProxy._real_service self).
Proof.
  intros self w Hclosed. unfold transaction_open in Hclosed. unfold_proxy.
  destruct (DatabaseProxy._real_service self) as [s |] eqn:Es.
  - cbn. unfold RealDatabaseService.commit_transaction,
      RealDatabaseService.rollback_transaction.
    rewrite Hclosed. cbn.
    eexists. eexists. repeat split; cbn; congruence.
  - exists self, self. repeat split; congruence.
Qed.

Lemma commit_and_rollback_without_transaction_return_false_witness :
  transaction_open (fst Demo.warm) = false /\
  fst (Demo.commit_transaction Demo.warm) = Returns false /\
  fst (Demo.rollback_transaction Demo.warm) = Returns false.
Proof.
  assert (H : transaction_open (fst Demo.warm) = false)
    by (vm_compute; reflexivity).
  split; [exact H |].
  destruct (commit_and_rollback_without_transaction_return_false
              (fst Demo.warm) (snd Demo.warm) H)
    as (self_c & self_r & Hc & Hr & _).
  unfold Demo.commit_transaction, Demo.rollback_transaction.
  rewrite (surjective_pairing Demo.warm), Hc, Hr. split; reflexivity.
Defined.

(** C6 as stated fails: on a proxy just created, and on a connected proxy
    without a transaction, commit and rollback return false; they do not
    raise. *)
Lemma commit_without_transaction_does_not_raise :
  transaction_open (fst (Demo.fresh Demo.admin_permissions)) = false /\
  fst (Demo.commit_transaction (Demo.fresh Demo.admin_permissions))
  = Returns false /\
  fst (Demo.rollback_transaction (Demo.fresh Demo.admin_permissions))
  = Returns false /\
  transaction_open (fst Demo.warm) = false /\
  fst (Demo.commit_transaction Demo.warm) = Returns false /\
  ~ (exists e, fst (Demo.commit_transaction Demo.warm) = Raises e) /\
  ~ (exists e, fst (Demo.rollback_transaction Demo.warm) = Raises e).
Proof.
  assert (Ec : fst (Demo.commit_transaction Demo.warm) = Returns false)
    by (vm_compute; reflexivity).
  assert (Er : fst (Demo.rollback_transaction Demo.warm) = Returns false)
    by (vm_compute; reflexivity).
  split; [vm_compute; reflexivity |].
  split; [vm_compute; reflexivity |].
  split; [vm_compute; reflexivity |].
  split; [vm_compute; reflexivity |].
  split; [exact Ec |].
  split.
  - intros [e H]. rewrite Ec in H. discriminate H.
  - intros [e H]. rewrite Er in H. discriminate H.
Qed.

Lemma denied_operation_changes_nothing_witness :
  UserPermissions.has_permission Demo.readonly_permissions Demo.profile_update
  = false /\
  snd Demo.refused_update = Demo.fresh Demo.readonly_permissions.
Proof.
  assert (H : UserPermissions.has_permission
                (DatabaseProxy.user_permissions
                   (fst (Demo.fresh Demo.readonly_permissions)))
                Demo.profile_update = false) by reflexivity.
  split; [exact H |].
  destruct (denied_operation_changes_nothing RealDatabaseService.init
              Demo.profile_update
              (fst (Demo.fresh Demo.readonly_permissions)) Demo.world H)
    as (msg & _ & Hupdate).
  unfold Demo.refused_update, Demo.execute_update.
  change (Demo.fresh Demo.readonly_permissions)
    with (fst (Demo.fresh Demo.readonly_permissions), Demo.world).
  rewrite Hupdate. reflexivity.
Defined.

(** C1 as stated fails: the read-only user's update is refused, and the audit
    log is the same before and after; no record was appended. *)
Lemma denied_update_is_not_audited :
  UserPermissions.has_permission Demo.readonly_permissions Demo.profile_update
  = false /\
  (exists msg, fst Demo.refused_update = Raises (PermissionError msg)) /\
  AuditLogger._logs (DatabaseProxy.audit_logger (fst (snd Demo.refused_update)))
  = AuditLogger._logs
      (DatabaseProxy.audit_logger (fst (Demo.fresh Demo.readonly_permissions)))
  /\
  ~ (exists entry,
        AuditLogger._logs
          (DatabaseProxy.audit_logger (fst (snd Demo.refused_update)))
        = AuditLogger._logs
            (DatabaseProxy.audit_logger
               (fst (Demo.fresh Demo.readonly_permissions))) ++ [entry]).
Proof.
  split; [reflexivity |].
  split; [eexists; vm_compute; reflexivity |].
  assert (E : AuditLogger._logs
                (DatabaseProxy.audit_logger (fst (snd Demo.refused_update)))
              = []) by (vm_compute; reflexivity).
  split; [vm_compute; reflexivity |].
  intros [entry H]. rewrite E in H. destruct (AuditLogger._logs _); discriminate H.
Qed.

Lemma update_audit_entry_has_no_row_count_witness :
  exists before ts,
    AuditLogger._logs
      (DatabaseProxy.audit_logger (fst (snd Demo.after_price_update)))
    = AuditLogger._logs (DatabaseProxy.audit_logger (fst Demo.warm)) ++ before
      ++ [query_entry ts
            (UserPermissions.user_id
               (DatabaseProxy.user_permissions (fst Demo.warm)))
            Demo.price_update true 0]
    /\ Forall (fun e => is_connection_entry e /\ AuditLogger.success e = true)
         before.
Proof.
  apply (update_audit_entry_has_no_row_count RealDatabaseService.init
           Demo.price_update (fst Demo.warm) (fst (snd Demo.after_price_update))
           (snd Demo.warm) (snd (snd Demo.after_price_update)) 2).
  vm_compute. reflexivity.
Defined.

Lemma write_empties_cache_witness :
  QueryCache._cache
    (DatabaseProxy.query_cache (fst (snd Demo.after_price_update))) = [] /\
  QueryCache._cache
    (DatabaseProxy.query_cache
       (fst (snd (Demo.commit_transaction Demo.in_transaction)))) = [].
Proof.
  split.
  - destruct (write_empties_cache RealDatabaseService.init
                Demo.price_update (fst Demo.warm) (snd Demo.warm))
      as [Hupdate _].
    apply (Hupdate 2 (fst (snd Demo.after_price_update))
             (snd (snd Demo.after_price_update))).
    + vm_compute. reflexivity.
    + reflexivity.
  - destruct (write_empties_cache RealDatabaseService.init
                Demo.price_update (fst Demo.in_transaction)
                (snd Demo.in_transaction))
      as [_ Hcommit].
    apply (Hcommit (fst (snd (Demo.commit_transaction Demo.in_transaction)))
             (snd (snd (Demo.commit_transaction Demo.in_transaction)))).
    vm_compute. reflexivity.
Defined.

(** C2 as stated fails: a statement that begins with SELECT, sent through
    [execute_update] by a user who may read, is executed by the store as an
    update, and the entry cached before is still there afterwards. *)
Lemma select_text_update_keeps_cache :
  fst Demo.select_as_update = Returns 2 /\
  last (DatabaseProxy.calls (fst (snd Demo.select_as_update))) StoreCreated
  = StoreCall (store_execute_update "SELECT * FROM products") None /\
  PyDict.len
    (QueryCache._cache (DatabaseProxy.query_cache (fst Demo.warm))) = 1 /\
  PyDict.len
    (QueryCache._cache
       (DatabaseProxy.query_cache (fst (snd Demo.select_as_update)))) = 1.
Proof. vm_compute. repeat split. Qed.

Lemma store_failure_is_audited_and_propagated_witness :
  DatabaseProxy.calls (fst (snd Demo.rejected_read))
  = DatabaseProxy.calls (fst Demo.rejecting)
    ++ [CacheCall (cache_get Demo.users_query); StoreCreated;
        StoreCall store_is_connected None]
    ++ [StoreCall (store_execute_query Demo.users_query)
          (Some RejectingStore.rejected)] /\
  fst Demo.rejected_read = Raises RejectingStore.rejected /\
  MetricsCollector.query_count
    (DatabaseProxy.metrics_collector (fst (snd Demo.rejected_read)))
  = MetricsCollector.query_count
      (DatabaseProxy.metrics_collector (fst Demo.rejecting)).
Proof.
  assert (Hcalls :
    DatabaseProxy.calls (fst (snd Demo.rejected_read))
    = DatabaseProxy.calls (fst Demo.rejecting)
      ++ [CacheCall (cache_get Demo.users_query); StoreCreated;
          StoreCall store_is_connected None]
      ++ [StoreCall (store_execute_query Demo.users_query)
            (Some RejectingStore.rejected)])
    by (vm_compute; reflexivity).
  split; [exact Hcalls |].
  destruct (store_failure_is_audited_and_propagated
              (svc := RejectingStore_service) (fun _ => tt)
              Demo.users_query (fst Demo.rejecting)
              (fst (snd Demo.rejected_read))
              (snd Demo.rejecting) (snd (snd Demo.rejected_read))
              (fst Demo.rejected_read)
              [CacheCall (cache_get Demo.users_query); StoreCreated;
               StoreCall store_is_connected None]
              RejectingStore.rejected)
    as (Hres & _ & _ & _ & Hcount).
  - vm_compute. reflexivity.
  - exact Hcalls.
  - split; [exact Hres | exact Hcount].
Defined.



(* ------------------------------------------------------------------ *)
(** ** Invariants of the proxy over any run of its methods *)

(** One rule per construct of the proxy's code: a property of the proxy
    object that every primitive step keeps is kept by every method, and so
    by every run of a caller.  [Uid] is what the property knows of the user
    id the proxy writes into its log. *)
Section Preservation.
Context {S : Type} {svc : DatabaseService S}.
Variable new_service : DatabaseConfig -> S.
Import DatabaseProxy.

Variable P : t S -> Prop.
Variable Uid : string -> Prop.

Lemma preserves_ret {A} (a : A) : preserves P (Py.ret a).
Proof. intros self w HP. exact HP. Qed.

Lemma preserves_raise {A} (e : Exception) : preserves P (@Py.raise _ A e).
Proof. intros self w HP. exact HP. Qed.

Lemma preserves_bind {A B} (m : M S A) (k : A -> M S B) :
  preserves P m -> (forall a, preserves P (k a)) -> preserves P (Py.bind m k).
Proof.
  intros Hm Hk self w HP. unfold Py.bind.
  specialize (Hm self w HP).
  destruct (m (self, w)) as [[a | e] [self1 w1]]; cbn in Hm |- *.
  - apply Hk, Hm.
  - exact Hm.
Qed.

Lemma preserves_try_except {A} (body : M S A) (handler : Exception -> M S A) :
  preserves P body -> (forall e, preserves P (handler e)) ->
  preserves P (Py.try_except body handler).
Proof.
  intros Hb Hh self w HP. unfold Py.try_except.
  specialize (Hb self w HP).
  destruct (body (self, w)) as [[a | e] [self1 w1]]; cbn in Hb |- *.
  - exact Hb.
  - apply Hh, Hb.
Qed.

Lemma preserves_time_time : preserves P time_time.
Proof. intros self w HP. exact HP. Qed.

Lemma preserves_check_permissions q : preserves P (_check_permissions q).
Proof. intros self w HP. exact HP. Qed.

Hypothesis P_user : forall self, P self ->
  Uid (UserPermissions.user_id (user_permissions self)).

Lemma preserves_bind_user {B} (k : string -> M S B) :
  (forall uid, Uid uid -> preserves P (k uid)) -> preserves P (Py.bind user k).
Proof.
  intros Hk self w HP. unfold Py.bind, user. cbn.
  apply Hk; [apply P_user |]; exact HP.
Qed.

Hypothesis P_cache_lookup : forall q, preserves P (cache_lookup q).
Hypothesis P_cache_store : forall q r, preserves P (cache_store q r).
Hypothesis P_cache_reset : preserves P cache_reset.
Hypothesis P_on_store : forall A name (method : Method S A),
  preserves P (on_store name method).
Hypothesis P_get_real_service : preserves P (_get_real_service new_service).
Hypothesis P_metric_query : forall x,
  preserves P (metric (MetricsCollector.record_query x)).
Hypothesis P_metric_hit :
  preserves P (metric MetricsCollector.record_cache_hit).
Hypothesis P_metric_miss :
  preserves P (metric MetricsCollector.record_cache_miss).
Hypothesis P_metric_connection :
  preserves P (metric MetricsCollector.record_connection).
Hypothesis P_log_query : forall uid q v, Uid uid ->
  preserves P (audit (AuditLogger.log_query uid q v)).
Hypothesis P_log_connection : forall uid b, Uid uid ->
  preserves P (audit (AuditLogger.log_connection uid b)).
Hypothesis P_log_transaction : forall uid op, Uid uid ->
  preserves P (audit (AuditLogger.log_transaction uid op)).

Ltac preserve :=
  repeat first
    [ apply preserves_ret
    | apply preserves_raise
    | apply preserves_time_time
    | apply preserves_check_permissions
    | apply P_cache_lookup
    | apply P_cache_store
    | apply P_cache_reset
    | apply P_on_store
    | apply P_get_real_service
    | apply P_metric_query
    | apply P_metric_hit
    | apply P_metric_miss
    | apply P_metric_connection
    | apply P_log_query; assumption
    | apply P_log_connection; assumption
    | apply P_log_transaction; assumption
    | apply preserves_bind_user; intros ? ?
    | apply preserves_bind; [| intros ?]
    | apply preserves_try_except; [| intros ?]
    | match goal with
      | |- preserves _ (if ?b then _ else _) => destruct b
      | |- preserves _ (match ?x with _ => _ end) => destruct x
      end ].

(** A method that works on the service the proxy holds. *)
Ltac on_service self w HP :=
  match goal with
  | |- P (fst (snd (?m (self, w)))) =>
      cut (preserves P m); [intros Hm; exact (Hm self w HP) |]
  end.

Lemma preserves_connect : preserves P (connect new_service).
Proof. unfold connect. preserve. Qed.

Lemma preserves_ensure_connection :
  preserves P (ensure_connection new_service).
Proof. unfold ensure_connection. preserve. Qed.

Lemma preserves_execute_query q : preserves P (execute_query new_service q).
Proof.
  unfold execute_query, permission_denied. preserve.
  all: try apply preserves_ensure_connection.
Qed.

Lemma preserves_execute_update q : preserves P (execute_update new_service q).
Proof.
  unfold execute_update, permission_denied. preserve.
  all: try apply preserves_ensure_connection.
Qed.

Lemma preserves_disconnect : preserves P (@disconnect S svc).
Proof.
  intros self w HP. unfold disconnect.
  destruct (_real_service self); [| exact HP].
  on_service self w HP. preserve.
Qed.

Lemma preserves_is_connected : preserves P (@is_connected S svc).
Proof.
  intros self w HP. unfold is_connected.
  destruct (_real_service self); [| exact HP].
  on_service self w HP. preserve.
Qed.

Lemma preserves_commit_transaction : preserves P (@commit_transaction S svc).
Proof.
  intros self w HP. unfold commit_transaction.
  destruct (_real_service self); [| exact HP].
  on_service self w HP. preserve.
Qed.

Lemma preserves_rollback_transaction :
  preserves P (@rollback_transaction S svc).
Proof.
  intros self w HP. unfold rollback_transaction.
  destruct (_real_service self); [| exact HP].
  on_service self w HP. preserve.
Qed.

Lemma preserves_begin_transaction :
  preserves P (begin_transaction new_service).
Proof.
  intros self w HP. unfold begin_transaction.
  destruct (_real_service self); on_service self w HP; preserve.
Qed.

(** Every public method keeps the property, and so does every run. *)
Lemma preserves_step (op : ProxyClient.Op) (self : t S) (w : World) :
  P self -> P (fst (ProxyClient.step new_service (self, w) op)).
Proof.
  intros HP. destruct op; cbn [ProxyClient.step].
  - now apply preserves_connect.
  - now apply preserves_disconnect.
  - now apply preserves_execute_query.
  - now apply preserves_execute_update.
  - now apply preserves_begin_transaction.
  - now apply preserves_commit_transaction.
  - now apply preserves_rollback_transaction.
  - now apply preserves_is_connected.
Qed.

Lemma preserves_run (ops : list ProxyClient.Op) :
  forall (self : t S) (w : World),
    P self -> P (fst (ProxyClient.run new_service ops (self, w))).
Proof.
  induction ops as [| op ops IH]; intros self w HP; [exact HP |].
  cbn [ProxyClient.run fold_left].
  pose proof (preserves_step op self w HP) as H1.
  destruct (ProxyClient.step new_service (self, w) op) as [self1 w1].
  apply IH, H1.
Qed.

End Preservation.

Lemma filter_all {A} (f : A -> bool) (l : list A) :
  Forall (fun x => f x = true) l -> filter f l = l.
Proof.
  induction 1 as [| x l Hx _ IH]; cbn; [reflexivity |].
  now rewrite Hx, IH.
Qed.

(** Split on the innermost test the goal is waiting for. *)
Ltac break_goal :=
  match goal with
  | |- context [match ?x with _ => _ end] =>
      lazymatch x with
      | context [match _ with _ => _ end] => fail
      | _ => destruct x eqn:?
      end
  end.

(** What a primitive step does to the proxy object. *)
Ltac primitive :=
  let self := fresh "self" in
  let w := fresh "w" in
  intros self w;
  cbv [preserves DatabaseProxy.cache_lookup DatabaseProxy.cache_store
       DatabaseProxy.cache_reset DatabaseProxy.on_store
       DatabaseProxy._get_real_service DatabaseProxy.metric
       DatabaseProxy.audit
       AuditLogger.log_query AuditLogger.log_connection
       AuditLogger.log_transaction now];
  repeat (break_goal; cbn [fst snd]);
  cbn.

Section ProxyInvariants.
Context {S : Type} {svc : DatabaseService S}.
Variable new_service : DatabaseConfig -> S.
Import DatabaseProxy.

(** X1.  Whatever a caller does with a proxy, in any order and whatever the
    store answers, the real service is created at most once, and the proxy
    holds no service exactly as long as none was created: creation is lazy
    and never repeated. *)
Theorem real_service_is_created_at_most_once :
  forall (ops : list ProxyClient.Op) (config : DatabaseConfig)
         (u : UserPermissions.t) (w : World),
    let self' := fst (ProxyClient.run new_service ops (init config u, w)) in
    (creations (calls self') <= 1)%nat /\
    (_real_service self' = None <-> creations (calls self') = 0%nat).
Proof.
  intros ops config u w.
  assert (H : lazily_created
                (fst (ProxyClient.run new_service ops (init config u, w)))).
  { apply (preserves_run new_service lazily_created (fun _ => True));
      try (intros; exact I); try reflexivity; unfold lazily_created.
    all: intros; primitive; intros HP; unfold creations in *;
      rewrite ?filter_app, ?length_app; cbn in *; try congruence; try lia. }
  cbv zeta. unfold lazily_created in H.
  destruct (_real_service _); rewrite H; split; try lia; split; congruence.
Qed.

(** X2.  The cache of a proxy never holds more than fifty entries, whatever
    a caller does, and its two dictionaries always hold the same keys in the
    same order, each key once. *)
Theorem proxy_cache_never_exceeds_fifty_entries :
  forall (ops : list ProxyClient.Op) (config : DatabaseConfig)
         (u : UserPermissions.t) (w : World),
    let cache :=
      query_cache (fst (ProxyClient.run new_service ops (init config u, w))) in
    PyDict.len (QueryCache._cache cache) <= 50 /\
    PyDict.keys (QueryCache._cache cache)
    = PyDict.keys (QueryCache._access_times cache) /\
    NoDup (PyDict.keys (QueryCache._cache cache)).
Proof.
  intros ops config u w.
  assert (H : cache_in_bounds
                (fst (ProxyClient.run new_service ops (init config u, w)))).
  { apply (preserves_run new_service cache_in_bounds (fun _ => True));
      try (intros; exact I).
    all: try match goal with
             | |- cache_in_bounds _ =>
                 solve [repeat split; cbn; try constructor; lia]
             end.
    all: intros; primitive; unfold cache_in_bounds; cbn;
      intros (Hc & Hlen & Hmax).
    all: try (repeat split; try apply Hc; assumption).
    - pose proof (get_preserves q (query_cache self) w0 Hc) as H.
      cbv zeta in H.
      match goal with E : QueryCache.get _ _ _ = _ |- _ => rewrite E in H end.
      cbn in H. destruct H as (H1 & H2 & H3 & _).
      split; [exact H1 | split; [lia | congruence]].
    - pose proof (put_preserves q r (query_cache self) w0 Hc
                    ltac:(lia) ltac:(lia)) as H.
      cbv zeta in H.
      match goal with E : QueryCache.put _ _ _ _ = _ |- _ => rewrite E in H end.
      cbn in H. destruct H as (H1 & H2 & H3 & _).
      split; [exact H1 | split; [lia | congruence]].
    - repeat split; try constructor; cbn; try assumption; lia. }
  destruct H as ((Hk & Hwf) & Hlen & _). cbv zeta. auto.
Qed.

(** X3.  The audit log only grows: from any state of the proxy and for any
    run of its methods, the log afterwards is the log before with entries
    appended.  No method removes or rewrites an entry. *)
Theorem audit_log_only_grows :
  forall (ops : list ProxyClient.Op) (self : t S) (w : World),
  exists suffix,
    AuditLogger._logs
      (audit_logger (fst (ProxyClient.run new_service ops (self, w))))
    = AuditLogger._logs (audit_logger self) ++ suffix.
Proof.
  intros ops self w.
  apply (preserves_run new_service
           (log_extends (AuditLogger._logs (audit_logger self)))
           (fun _ => True));
    try (intros; exact I).
  all: try match goal with
           | |- log_extends _ _ => solve [exists []; now rewrite app_nil_r]
           end.
  all: intros; primitive; unfold log_extends; cbn; intros [suffix HP];
    try (exists suffix; exact HP).
  all: eexists; rewrite HP, <- app_assoc; reflexivity.
Qed.

(** X4.  A proxy never changes the user it works for, and every entry it
    logs names that user: [get_audit_trail], which filters the log by the
    user's id, returns the whole log of the proxy. *)
Theorem audit_trail_is_the_whole_log :
  forall (ops : list ProxyClient.Op) (config : DatabaseConfig)
         (u : UserPermissions.t) (w : World),
    let self' := fst (ProxyClient.run new_service ops (init config u, w)) in
    user_permissions self' = u /\
    get_audit_trail self' = AuditLogger._logs (audit_logger self').
Proof.
  intros ops config u w.
  assert (H : logged_by u
                (fst (ProxyClient.run new_service ops (init config u, w)))).
  { apply (preserves_run new_service (logged_by u)
             (fun uid => uid = UserPermissions.user_id u)).
    all: try match goal with
             | |- logged_by _ _ => solve [split; [reflexivity | constructor]]
             | |- forall self, logged_by _ self -> _ =>
                 solve [intros self [Hu _]; now rewrite Hu]
             end.
    all: intros; primitive; unfold logged_by; cbn; intros [Hu HP];
      try (split; assumption).
    all: split; [exact Hu |]; apply Forall_app; split; [exact HP |];
      repeat constructor; assumption. }
  destruct H as [Hu HP]. cbv zeta. split; [exact Hu |].
  unfold get_audit_trail, AuditLogger.get_audit_trail. rewrite Hu.
  apply filter_all. eapply Forall_impl; [| exact HP].
  intros e He. cbn beta. rewrite He. apply String.eqb_refl.
Qed.

(** X5.  No counter of the metrics ever decreases: from any state of the
    proxy and for any run of its methods, the numbers of queries, cache
    hits, cache misses and connections are at least what they were. *)
Theorem counters_never_decrease :
  forall (ops : list ProxyClient.Op) (self : t S) (w : World),
    counters_from (metrics_collector self)
      (fst (ProxyClient.run new_service ops (self, w))).
Proof.
  intros ops self w.
  apply (preserves_run new_service (counters_from (metrics_collector self))
           (fun _ => True));
    try (intros; exact I).
  all: try match goal with
           | |- counters_from _ _ => solve [unfold counters_from; lia]
           end.
  all: intros; primitive; unfold counters_from; cbn; lia.
Qed.

End ProxyInvariants.

(* ------------------------------------------------------------------ *)
(** ** One operation of the proxy *)

Lemma run_end {A B C : Type} (a a' : A) (b b' : B) (c c' : C) :
  (a, (b, c)) = (a', (b', c')) -> a' = a /\ b' = b /\ c' = c.
Proof. intros H. inversion H. auto. Qed.

(** Read the end of a run off the equation [H]. *)
Ltac at_end H :=
  apply run_end in H;
  let H1 := fresh in let H2 := fresh in let H3 := fresh in
  destruct H as (H1 & H2 & H3);
  try rewrite H1 in *; try rewrite H2 in *; try rewrite H3 in *;
  clear H1 H2 H3.

Lemma get_on_empty (q : string) (c : QueryCache.t) (w : World) :
  QueryCache._cache c = [] -> QueryCache.get q c w = (None, c, w).
Proof. intros H. unfold QueryCache.get. now rewrite H. Qed.

Lemma get_on_absent (q : string) (c : QueryCache.t) (w : World) :
  PyDict.get (QueryCache._get_cache_key q) (QueryCache._cache c) = None ->
  QueryCache.get q c w = (None, c, w).
Proof. intros H. unfold QueryCache.get. now rewrite H. Qed.

Lemma random_draw_keeps_clock (w w' : World) (b : bool) :
  random_below_tenth w = (b, w') -> clock w' = clock w /\ ticks w' = ticks w.
Proof.
  unfold random_below_tenth, draw. intros H. inversion H. split; reflexivity.
Qed.

Lemma randint_range (lo hi : Z) (w : World) :
  lo <= hi -> lo <= fst (randint lo hi w) <= hi.
Proof.
  intros H. unfold randint, draw. cbn.
  pose proof (Z.mod_pos_bound (rng w (draws w)) (hi - lo + 1)). lia.
Qed.

Section ProxySteps.
Context {S : Type} {svc : DatabaseService S}.
Variable new_service : DatabaseConfig -> S.
Import DatabaseProxy.
Local Opaque QueryCache.get QueryCache.put.

(** What a permitted read that misses does to the counters. *)
Lemma read_miss_counts (q : string) (self : t S) (w : World) c' w' :
  UserPermissions.has_permission (user_permissions self) q = true ->
  QueryCache.get q (query_cache self) w = (None, c', w') ->
  forall res self1 w1,
    execute_query new_service q (self, w) = (res, (self1, w1)) ->
    MetricsCollector.cache_misses (metrics_collector self1)
    = MetricsCollector.cache_misses (metrics_collector self) + 1 /\
    MetricsCollector.cache_hits (metrics_collector self1)
    = MetricsCollector.cache_hits (metrics_collector self) /\
    (MetricsCollector.query_count (metrics_collector self1)
     = MetricsCollector.query_count (metrics_collector self) + 1 <->
     exists r, res = Returns r).
Proof.
  intros Hperm Hget res self1 w1 H. unfold_proxy.
  rewrite Hperm in H. cbn in H. rewrite Hget in H. cbn in H.
  repeat (break_hyp H; cbn in H).
  all: at_end H; cbn.
  all: repeat split; try lia; try (intros; eexists; reflexivity).
  all: try (intros [r Hr]; discriminate Hr).
  all: try (intros; exfalso; lia).
Qed.

(** What an update that returns leaves behind. *)
Lemma update_leaves_empty_cache (q : string) (self self1 : t S)
    (w w1 : World) (n : Z) :
  is_select q = false ->
  execute_update new_service q (self, w) = (Returns n, (self1, w1)) ->
  QueryCache._cache (query_cache self1) = [] /\
  QueryCache._access_times (query_cache self1) = [] /\
  user_permissions self1 = user_permissions self.
Proof.
  intros Hsel H. unfold_proxy. rewrite Hsel in H.
  repeat (break_hyp H; cbn in H; try discriminate H).
  all: inversion H; subst; clear H; cbn; repeat split; reflexivity.
Qed.

(** X6.  A read the user is permitted is counted exactly once, as a cache
    hit or as a cache miss, by what the cache answers.  On a hit the cached
    result is returned and no query is counted; on a miss one query is
    counted exactly when the read returns a result. *)
Theorem permitted_read_counts_one_hit_or_miss :
  forall (q : string) (self : t S) (w : World),
    UserPermissions.has_permission (user_permissions self) q = true ->
    let m := metrics_collector self in
    let out := execute_query new_service q (self, w) in
    let m' := metrics_collector (fst (snd out)) in
    match fst (fst (QueryCache.get q (query_cache self) w)) with
    | Some r =>
        fst out = Returns r /\
        MetricsCollector.cache_hits m' = MetricsCollector.cache_hits m + 1 /\
        MetricsCollector.cache_misses m' = MetricsCollector.cache_misses m /\
        MetricsCollector.query_count m' = MetricsCollector.query_count m
    | None =>
        MetricsCollector.cache_hits m' = MetricsCollector.cache_hits m /\
        MetricsCollector.cache_misses m' = MetricsCollector.cache_misses m + 1 /\
        (MetricsCollector.query_count m' = MetricsCollector.query_count m + 1
         <-> exists r, fst out = Returns r)
    end.
Proof.
  intros q self w Hperm. cbv zeta.
  destruct (QueryCache.get q (query_cache self) w) as [[[r |] c'] w'] eqn:Hget;
    cbn [fst].
  - unfold_proxy. rewrite Hperm. cbn. rewrite Hget. cbn. repeat split; lia.
  - destruct (execute_query new_service q (self, w)) as [res [self1 w1]] eqn:H.
    destruct (read_miss_counts q self w c' w' Hperm Hget res self1 w1 H)
      as (Hm & Hh & Hq).
    cbn [fst snd]. auto.
Qed.

(** X7.  After an update that returned, the next permitted read is a cache
    miss whatever was cached before: it counts one miss and no hit, and when
    it returns a result it counts one query, the store having been asked
    again. *)
Theorem read_after_write_is_a_miss :
  forall (qu q : string) (self self1 self2 : t S) (w w1 w2 : World)
         (n : Z) (res : Outcome QueryResult),
    execute_update new_service qu (self, w) = (Returns n, (self1, w1)) ->
    is_select qu = false ->
    UserPermissions.has_permission (user_permissions self) q = true ->
    execute_query new_service q (self1, w1) = (res, (self2, w2)) ->
    MetricsCollector.cache_misses (metrics_collector self2)
    = MetricsCollector.cache_misses (metrics_collector self1) + 1 /\
    MetricsCollector.cache_hits (metrics_collector self2)
    = MetricsCollector.cache_hits (metrics_collector self1) /\
    (forall r, res = Returns r ->
       MetricsCollector.query_count (metrics_collector self2)
       = MetricsCollector.query_count (metrics_collector self1) + 1).
Proof.
  intros qu q self self1 self2 w w1 w2 n res Hup Hsel Hperm Hread.
  destruct (update_leaves_empty_cache qu self self1 w w1 n Hsel Hup)
    as (Hempty & _ & Hu).
  rewrite <- Hu in Hperm.
  pose proof (get_on_empty q (query_cache self1) w1 Hempty) as Hget.
  destruct (read_miss_counts q self1 w1 _ _ Hperm Hget res self2 w2 Hread)
    as (Hm & Hh & Hq).
  split; [exact Hm |]. split; [exact Hh |].
  intros r ->. apply Hq. now exists r.
Qed.

(** X8.  A commit or a rollback is audited when the store reports success,
    and only then: the log gains one TRANSACTION_COMMIT or
    TRANSACTION_ROLLBACK entry of the proxy's user when the call returns
    true, and nothing otherwise.  A commit that does not return true leaves
    the cache as it was. *)
Theorem transaction_is_audited_only_on_success :
  forall (self : t S) (w : World),
    let uid := UserPermissions.user_id (user_permissions self) in
    let logs := AuditLogger._logs (audit_logger self) in
    let committed := commit_transaction (self, w) in
    let rolled_back := rollback_transaction (self, w) in
    (exists ts,
        AuditLogger._logs (audit_logger (fst (snd committed)))
        = logs ++ match fst committed with
                  | Returns true => [transaction_entry ts uid "COMMIT"]
                  | _ => []
                  end) /\
    (exists ts,
        AuditLogger._logs (audit_logger (fst (snd rolled_back)))
        = logs ++ match fst rolled_back with
                  | Returns true => [transaction_entry ts uid "ROLLBACK"]
                  | _ => []
                  end) /\
    (fst committed <> Returns true ->
     query_cache (fst (snd committed)) = query_cache self).
Proof.
  intros self w. cbv zeta. unfold_proxy.
  destruct (_real_service self) as [s |]; cbn.
  2: { split; [| split]; try (exists 0; now rewrite app_nil_r).
       reflexivity. }
  destruct (svc_commit_transaction s w) as [[[[] | e] s1] w1];
    destruct (svc_rollback_transaction s w) as [[[[] | e'] s2] w2]; cbn.
  all: (split; [| split]);
    try (exists 0; now rewrite app_nil_r);
    try (eexists; reflexivity); try congruence; try reflexivity.
Qed.

(** X9.  Through the proxy the client is refused without the capability of
    the statement it builds: the two fetches need the right to read, the
    profile update the right to update, whatever the user id and the data.
    The refusal is a permission error and leaves the proxy and the world as
    they were. *)
Theorem client_is_refused_without_the_capability :
  forall (self : t S) (w : World) (user_id : string)
         (data : PyDict.dict string),
    (UserPermissions.can_execute_select (user_permissions self) = false ->
     (exists msg,
         DatabaseClient.fetch_user_data new_service user_id (self, w)
         = (Raises (PermissionError msg), (self, w))) /\
     (exists msg,
         DatabaseClient.fetch_all_users new_service (self, w)
         = (Raises (PermissionError msg), (self, w)))) /\
    (UserPermissions.can_execute_update (user_permissions self) = false ->
     exists msg,
       DatabaseClient.update_user_profile new_service user_id data (self, w)
       = (Raises (PermissionError msg), (self, w))).
Proof.
  intros self w user_id data. split.
  - intros Hno. split.
    + eexists. unfold DatabaseClient.fetch_user_data. unfold_proxy.
      change (UserPermissions.has_permission (user_permissions self)
                (DatabaseClient.user_data_query user_id))
        with (UserPermissions.can_execute_select (user_permissions self)).
      rewrite Hno. cbn. reflexivity.
    + eexists. unfold DatabaseClient.fetch_all_users. unfold_proxy.
      change (UserPermissions.has_permission (user_permissions self)
                "SELECT * FROM users")
        with (UserPermissions.can_execute_select (user_permissions self)).
      rewrite Hno. cbn. reflexivity.
  - intros Hno. eexists. unfold DatabaseClient.update_user_profile.
    unfold_proxy.
    change (UserPermissions.has_permission (user_permissions self)
              (DatabaseClient.profile_update_query user_id data))
      with (UserPermissions.can_execute_update (user_permissions self)).
    rewrite Hno. cbn. reflexivity.
Qed.

Lemma profile_update_query_is_no_select
    (user_id : string) (data : PyDict.dict string) :
  is_select (DatabaseClient.profile_update_query user_id data) = false.
Proof.
  unfold is_select, DatabaseClient.profile_update_query, PyStr.strip.
  cbn [PyStr.lower String.append PyStr.lstrip].
  change (PyStr.isspace (PyStr.lower_char "U")) with false. cbv iota.
  rewrite (rstrip_cons (PyStr.lower_char "U") _ eq_refl).
  reflexivity.
Qed.

(** X10.  A profile update of the client that returns has emptied the cache
    of the proxy, both dictionaries, whatever the user id and the data: the
    statement the client builds is never taken for a read. *)
Theorem profile_update_empties_the_cache :
  forall (self self' : t S) (w w' : World) (user_id : string)
         (data : PyDict.dict string) (ok : bool),
    DatabaseClient.update_user_profile new_service user_id data (self, w)
    = (Returns ok, (self', w')) ->
    QueryCache._cache (query_cache self') = [] /\
    QueryCache._access_times (query_cache self') = [].
Proof.
  intros self self' w w' user_id data ok H.
  unfold DatabaseClient.update_user_profile, Py.bind, Py.ret in H.
  destruct (execute_update new_service _ (self, w))
    as [[n | e] [self1 w1]] eqn:Hup; [| discriminate H].
  at_end H.
  destruct (update_leaves_empty_cache _ self self1 w w1 n
              (profile_update_query_is_no_select user_id data) Hup)
    as (H1 & H2 & _).
  split; assumption.
Qed.

End ProxySteps.

(* ------------------------------------------------------------------ *)
(** ** The proxy in front of the real service *)

Section RealProxy.
Import DatabaseProxy.
Local Opaque QueryCache.get QueryCache.put random_below_tenth randint
  is_select.

(** X11.  When the proxy is not connected and the connection attempt fails,
    a permitted update, and a permitted read that is not cached, raise
    RuntimeError [Failed to connect to database].  The failed attempt is
    audited as one CONNECTION entry without success, stamped with the
    current clock reading; no connection and no query is counted (the read
    counts its cache miss), the cache is as before and the proxy is still
    not connected. *)
Theorem failed_connection_is_audited_and_reported :
  forall (q : string) (self : t RealDatabaseService.t) (w : World),
    UserPermissions.has_permission (user_permissions self) q = true ->
    service_connected self = false ->
    connection_will_fail w ->
    let uid := UserPermissions.user_id (user_permissions self) in
    let failure := RuntimeError "Failed to connect to database" in
    (forall self1 w1 res,
        execute_update RealDatabaseService.init q (self, w)
        = (res, (self1, w1)) ->
        res = Raises failure /\
        AuditLogger._logs (audit_logger self1)
        = AuditLogger._logs (audit_logger self)
          ++ [connection_entry (clock w (ticks w)) uid false] /\
        metrics_collector self1 = metrics_collector self /\
        query_cache self1 = query_cache self /\
        service_connected self1 = false) /\
    (PyDict.get (QueryCache._get_cache_key q)
       (QueryCache._cache (query_cache self)) = None ->
     forall self1 w1 res,
        execute_query RealDatabaseService.init q (self, w)
        = (res, (self1, w1)) ->
        res = Raises failure /\
        AuditLogger._logs (audit_logger self1)
        = AuditLogger._logs (audit_logger self)
          ++ [connection_entry (clock w (ticks w)) uid false] /\
        metrics_collector self1
        = MetricsCollector.record_cache_miss (metrics_collector self) /\
        query_cache self1 = query_cache self /\
        service_connected self1 = false).
Proof.
  intros q self w Hperm Hconn Hfail. cbv zeta.
  unfold service_connected in Hconn. unfold connection_will_fail in Hfail.
  destruct (random_below_tenth w) as [b w'] eqn:Er. cbn in Hfail. subst b.
  destruct (random_draw_keeps_clock _ _ _ Er) as [Ec Et].
  split.
  - intros self1 w1 res H. unfold_proxy. rewrite Hperm in H. cbn in H.
    unfold RealDatabaseService.connect in H.
    destruct (_real_service self) as [s |] eqn:Es;
      repeat (progress (rewrite ?Es, ?Hconn, ?Er in H; cbn in H));
      at_end H; cbn; rewrite ?Hconn, Ec, Et; auto.
  - intros Habsent self1 w1 res H.
    pose proof (get_on_absent q (query_cache self) w Habsent) as Hget.
    unfold_proxy. rewrite Hperm in H. cbn in H. rewrite Hget in H. cbn in H.
    unfold RealDatabaseService.connect in H.
    destruct (_real_service self) as [s |] eqn:Es;
      repeat (progress (rewrite ?Es, ?Hconn, ?Er in H; cbn in H));
      at_end H; cbn; rewrite ?Hconn, Ec, Et; destruct self; cbn in *; auto.
Qed.

(** X12.  [begin_transaction] never connects: on a proxy whose service is
    there but not connected it asks the service once, returns false, and
    changes neither the service nor the log nor the metrics. *)
Theorem begin_transaction_does_not_reconnect :
  forall (self : t RealDatabaseService.t) (w : World)
         (s : RealDatabaseService.t),
    _real_service self = Some s ->
    RealDatabaseService._connected s = false ->
    exists self',
      begin_transaction RealDatabaseService.init (self, w)
      = (Returns false, (self', w)) /\
      calls self' = calls self ++ [StoreCall store_begin_transaction None] /\
      _real_service self' = Some s /\
      audit_logger self' = audit_logger self /\
      metrics_collector self' = metrics_collector self.
Proof.
  intros self w s Es Hc. unfold begin_transaction. rewrite Es.
  unfold_proxy. rewrite Es. cbn.
  unfold RealDatabaseService.begin_transaction. rewrite Hc. cbn.
  eexists. split; [reflexivity |]. cbn. auto.
Qed.

(** X13.  An explicit [connect] on a proxy that is already connected
    returns true, counts one more connection and audits one more successful
    CONNECTION entry, although the service does nothing and stays the
    same. *)
Theorem connect_on_connected_proxy_counts_again :
  forall (self : t RealDatabaseService.t) (w : World),
    service_connected self = true ->
    exists self',
      connect RealDatabaseService.init (self, w)
      = (Returns true, (self', snd (now w))) /\
      MetricsCollector.connection_count (metrics_collector self')
      = MetricsCollector.connection_count (metrics_collector self) + 1 /\
      AuditLogger._logs (audit_logger self')
      = AuditLogger._logs (audit_logger self)
        ++ [connection_entry (clock w (ticks w))
              (UserPermissions.user_id (user_permissions self)) true] /\
      _real_service self' = _real_service self.
Proof.
  intros self w Hc. unfold service_connected in Hc. unfold_proxy.
  destruct (_real_service self) as [s |] eqn:Es; [| discriminate Hc].
  cbn in Hc |- *. unfold RealDatabaseService.connect. rewrite ?Es. cbn.
  rewrite Hc. cbn.
  eexists. split; [reflexivity |]. cbn. auto.
Qed.

(** X14.  An update through the proxy that returns reports between one and
    five affected rows, so the client's [update_user_profile] never returns
    false: it returns true or raises. *)
Theorem update_reports_one_to_five_rows :
  forall (q : string) (self self' : t RealDatabaseService.t) (w w' : World)
         (n : Z) (user_id : string) (data : PyDict.dict string)
         (ok : bool),
    (execute_update RealDatabaseService.init q (self, w)
     = (Returns n, (self', w')) -> 1 <= n <= 5) /\
    (DatabaseClient.update_user_profile RealDatabaseService.init user_id data
       (self, w) = (Returns ok, (self', w')) -> ok = true).
Proof.
  intros q self self' w w' n user_id data ok.
  assert (Hrange : forall q0 m st,
             execute_update RealDatabaseService.init q0 (self, w)
             = (Returns m, st) -> 1 <= m <= 5).
  { intros q0 m [self1 w1] H. unfold_proxy.
    cbn in H.
    unfold RealDatabaseService.execute_update, RealDatabaseService.connect in H.
    repeat (break_hyp H; cbn in H; try discriminate H).
    all: inversion H; subst; clear H.
    all: match goal with
         | E : randint 1 5 ?x = (?v, _) |- _ =>
             pose proof (randint_range 1 5 x ltac:(lia)) as Hr;
             rewrite E in Hr; exact Hr
         end. }
  split.
  - apply Hrange.
  - unfold DatabaseClient.update_user_profile, Py.bind, Py.ret.
    destruct (execute_update _ _ _) as [[m | e] st] eqn:H; [| discriminate].
    intros Hok. inversion Hok; subst.
    apply Hrange in H. apply Z.gtb_lt. lia.
Qed.

End RealProxy.

(* ------------------------------------------------------------------ *)
(** ** The real service *)

Lemma rstrip_keeps_prefix (a : string) (c : ascii) (s : string) :
  PyStr.isspace c = false ->
  PyStr.rstrip (String.append a (String c s))
  = String.append a (String c (PyStr.rstrip s)).
Proof.
  intros Hc. induction a as [| x a IH].
  - cbn. rewrite Hc. now destruct (PyStr.rstrip s).
  - change (PyStr.rstrip (String x (String.append a (String c s)))
            = String x (String.append a (String c (PyStr.rstrip s)))).
    cbn [PyStr.rstrip]. rewrite IH.
    now destruct a.
Qed.

Lemma begin_times_connected (n : nat) :
  forall s w, RealDatabaseService._connected s = true ->
    RealDatabaseService._connected (begin_times n s w) = true /\
    RealDatabaseService._in_transaction (begin_times (S n) s w) = true.
Proof.
  induction n as [| n IH]; intros s w Hc.
  - cbn. unfold RealDatabaseService.begin_transaction. rewrite Hc. cbn. auto.
  - change (begin_times (S n) s w)
      with (begin_times n
              (snd (fst (RealDatabaseService.begin_transaction s w))) w).
    change (begin_times (S (S n)) s w)
      with (begin_times (S n)
              (snd (fst (RealDatabaseService.begin_transaction s w))) w).
    apply IH. unfold RealDatabaseService.begin_transaction.
    rewrite Hc. cbn. exact Hc.
Qed.

Section RealService.
Import RealDatabaseService.

(** X15.  Transactions of the real service do not nest: however often
    [begin_transaction] was called on a connected service, one commit or one
    rollback closes the transaction, and a second one returns false and
    changes nothing. *)
Theorem transactions_do_not_nest :
  forall (n : nat) (s : t) (w : World),
    _connected s = true ->
    let opened := begin_times (S n) s w in
    let closed := with_in_transaction false opened in
    commit_transaction opened w = (Returns true, closed, w) /\
    rollback_transaction opened w = (Returns true, closed, w) /\
    commit_transaction closed w = (Returns false, closed, w) /\
    rollback_transaction closed w = (Returns false, closed, w).
Proof.
  intros n s w Hc. cbv zeta.
  destruct (begin_times_connected n s w Hc) as [_ Hopen].
  unfold commit_transaction, rollback_transaction.
  rewrite Hopen. cbn. auto.
Qed.

(** X16.  Disconnecting the real service does not end its transaction: the
    disconnected service refuses to begin a transaction and raises on every
    query and update, but a commit still returns true. *)
Theorem disconnect_keeps_the_transaction_open :
  forall (s : t) (w : World) (q : string),
    _in_transaction s = true ->
    let s' := snd (fst (disconnect s w)) in
    _connected s' = false /\
    begin_transaction s' w = (Returns false, s', w) /\
    fst (fst (commit_transaction s' w)) = Returns true /\
    execute_query q s' w
    = (Raises (RuntimeError "Not connected to database"), s', w) /\
    execute_update q s' w
    = (Raises (RuntimeError "Not connected to database"), s', w).
Proof.
  intros s w q Hopen. cbv zeta. unfold disconnect.
  destruct (_connected s) eqn:Ec; cbn.
  - unfold begin_transaction, commit_transaction, execute_query,
      execute_update. cbn.
    rewrite Hopen. auto.
  - unfold begin_transaction, commit_transaction, execute_query,
      execute_update.
    rewrite Ec, Hopen. cbn. auto.
Qed.

(** X17.  The query [fetch_user_data] builds makes the connected real
    service return its whole users table, whatever the id asked for: the
    service looks for the word [users] and never at the WHERE clause.  The
    service itself is left as it was. *)
Theorem user_data_query_selects_every_user :
  forall (user_id : string) (s : t) (w : World),
    _connected s = true ->
    exists r w',
      execute_query (DatabaseClient.user_data_query user_id) s w
      = (Returns r, s, w') /\
      rows r = table "users" s.
Proof.
  intros user_id s w Hc. unfold execute_query.
  rewrite Hc. cbn [negb].
  assert (Hcanon :
    PyStr.strip (PyStr.lower (DatabaseClient.user_data_query user_id))
    = String.append "select * from users where id ="
        (PyStr.rstrip (String " " (PyStr.lower user_id)))).
  { unfold DatabaseClient.user_data_query, PyStr.strip.
    cbn [PyStr.lower String.append PyStr.lstrip].
    change (PyStr.isspace (PyStr.lower_char "S")) with false. cbv iota.
    exact (rstrip_keeps_prefix "select * from users where id " "="
             (String " " (PyStr.lower user_id)) eq_refl). }
  cbn [now draw fst snd]. rewrite Hcanon.
  eexists. eexists. split; reflexivity.
Qed.

End RealService.

(* ------------------------------------------------------------------ *)
(** ** The permission gate: who is granted what *)

Lemma startswith_two (s : string) (a b : ascii) (p : string) :
  PyStr.startswith s (String a (String b p)) = true ->
  exists rest, s = String a (String b rest).
Proof.
  destruct s as [| a' [| b' rest]]; cbn; try discriminate.
  - intros H. apply andb_prop in H. destruct H as [_ H]. discriminate H.
  - intros H. apply andb_prop in H. destruct H as [Ha H].
    apply andb_prop in H. destruct H as [Hb _].
    apply Ascii.eqb_eq in Ha, Hb. subst. now exists rest.
Qed.

(** No text begins with two of the keywords. *)
Lemma keywords_exclude (s k1 k2 : string) (p1 p2 : PermissionType) :
  In (k1, p1) keyword_capabilities -> In (k2, p2) keyword_capabilities ->
  PyStr.startswith s k1 = true -> PyStr.startswith s k2 = true ->
  k1 = k2.
Proof.
  intros H1 H2 S1 S2. cbn in H1, H2.
  repeat (destruct H1 as [H1 | H1]; [inversion H1; subst; clear H1 |]);
    try contradiction;
    repeat (destruct H2 as [H2 | H2]; [inversion H2; subst; clear H2 |]);
    try contradiction; try reflexivity.
  all: apply startswith_two in S1; destruct S1 as [r1 E1];
    apply startswith_two in S2; destruct S2 as [r2 E2];
    rewrite E1 in E2; discriminate E2.
Qed.

(** X18.  [has_permission] grants an operation exactly when its upper-cased
    text begins with one of the seven keywords and the user holds the
    capability of that keyword or ADMIN.  Any other text is refused, also
    for an admin. *)
Theorem permission_is_granted_exactly_with_the_capability :
  forall (u : UserPermissions.t) (operation : string),
    UserPermissions.has_permission u operation = true <->
    exists keyword capability,
      In (keyword, capability) keyword_capabilities /\
      PyStr.startswith (PyStr.upper operation) keyword = true /\
      (UserPermissions.holds capability u = true \/
       UserPermissions.holds ADMIN u = true).
Proof.
  intros u operation. split.
  - unfold UserPermissions.has_permission, PyStr.startswith_any.
    cbn [existsb].
    unfold UserPermissions.can_execute_select,
      UserPermissions.can_execute_insert,
      UserPermissions.can_execute_update, UserPermissions.can_execute_delete,
      UserPermissions.can_execute_ddl.
    destruct (PyStr.startswith (PyStr.upper operation) "SELECT") eqn:E1.
    { intros H. apply orb_prop in H. exists "SELECT"%string, SELECT.
      cbn. tauto. }
    destruct (PyStr.startswith (PyStr.upper operation) "INSERT") eqn:E2.
    { intros H. apply orb_prop in H. exists "INSERT"%string, INSERT.
      cbn. tauto. }
    destruct (PyStr.startswith (PyStr.upper operation) "UPDATE") eqn:E3.
    { intros H. apply orb_prop in H. exists "UPDATE"%string, UPDATE.
      cbn. tauto. }
    destruct (PyStr.startswith (PyStr.upper operation) "DELETE") eqn:E4.
    { intros H. apply orb_prop in H. exists "DELETE"%string, DELETE.
      cbn. tauto. }
    destruct (PyStr.startswith (PyStr.upper operation) "CREATE") eqn:E5.
    { intros H. apply orb_prop in H. exists "CREATE"%string, DDL.
      cbn. tauto. }
    destruct (PyStr.startswith (PyStr.upper operation) "ALTER") eqn:E6.
    { intros H. apply orb_prop in H. exists "ALTER"%string, DDL.
      cbn. tauto. }
    destruct (PyStr.startswith (PyStr.upper operation) "DROP") eqn:E7.
    { intros H. apply orb_prop in H. exists "DROP"%string, DDL.
      cbn. tauto. }
    cbn. discriminate.
  - intros (keyword & capability & Hin & Hprefix & Hheld).
    assert (Hgrant : UserPermissions.holds capability u
                     || UserPermissions.holds ADMIN u = true)
      by (apply orb_true_iff; exact Hheld).
    assert (Hother : forall k p,
               In (k, p) keyword_capabilities -> k <> keyword ->
               PyStr.startswith (PyStr.upper operation) k = false).
    { intros k p Hk Hne.
      destruct (PyStr.startswith (PyStr.upper operation) k) eqn:E;
        [| reflexivity].
      exfalso. apply Hne.
      exact (keywords_exclude _ _ _ _ _ Hk Hin E Hprefix). }
    unfold UserPermissions.has_permission, PyStr.startswith_any.
    cbn [existsb].
    unfold UserPermissions.can_execute_select,
      UserPermissions.can_execute_insert,
      UserPermissions.can_execute_update, UserPermissions.can_execute_delete,
      UserPermissions.can_execute_ddl.
    cbn in Hin.
    repeat (destruct Hin as [Hin | Hin];
            [inversion Hin; subst; clear Hin;
             rewrite ?Hprefix;
             repeat (erewrite Hother by (cbn; first
                       [ left; reflexivity
                       | right; left; reflexivity
                       | right; right; left; reflexivity
                       | right; right; right; left; reflexivity
                       | right; right; right; right; left; reflexivity
                       | right; right; right; right; right; left; reflexivity
                       | right; right; right; right; right; right; left;
                         reflexivity
                       | discriminate ]));
             rewrite ?Hprefix; cbn; rewrite ?orb_true_r; try exact Hgrant |]).
    contradiction.
Qed.

Lemma blank_is_no_initial (c k : ascii) :
  PyStr.isspace c = true ->
  In k ["S"; "I"; "U"; "D"; "C"; "A"]%char ->
  Ascii.eqb k (PyStr.upper_char c) = false.
Proof.
  intros Hc Hk.
  destruct c as [[] [] [] [] [] [] [] []]; try discriminate Hc; clear Hc;
    cbn in Hk;
    repeat (destruct Hk as [Hk | Hk]; [subst k; reflexivity |]);
    contradiction.
Qed.

(** X19.  A text that begins with a blank is refused whatever the
    permissions, ADMIN included, and so is the empty text: the gate does not
    strip the text before it looks for the keyword. *)
Theorem blank_led_text_is_always_refused :
  forall (u : UserPermissions.t) (c : ascii) (rest : string),
    PyStr.isspace c = true ->
    UserPermissions.has_permission u (String c rest) = false /\
    UserPermissions.has_permission u EmptyString = false.
Proof.
  intros u c rest Hc. split; [| reflexivity].
  unfold UserPermissions.has_permission, PyStr.startswith_any.
  cbn [PyStr.upper PyStr.startswith existsb].
  rewrite !(blank_is_no_initial c _ Hc) by (cbn; tauto).
  reflexivity.
Qed.

(* ------------------------------------------------------------------ *)
(** ** The cache: keys, round trip, any capacity *)

Lemma lower_char_idempotent (c : ascii) :
  PyStr.lower_char (PyStr.lower_char c) = PyStr.lower_char c.
Proof. destruct c as [[] [] [] [] [] [] [] []]; reflexivity. Qed.

Lemma lower_char_isspace (c : ascii) :
  PyStr.isspace (PyStr.lower_char c) = PyStr.isspace c.
Proof. destruct c as [[] [] [] [] [] [] [] []]; reflexivity. Qed.

Lemma lower_idempotent (s : string) :
  PyStr.lower (PyStr.lower s) = PyStr.lower s.
Proof.
  induction s as [| c s IH]; cbn; [reflexivity |].
  now rewrite lower_char_idempotent, IH.
Qed.

Lemma lower_append (a b : string) :
  PyStr.lower (String.append a b)
  = String.append (PyStr.lower a) (PyStr.lower b).
Proof. induction a as [| c a IH]; cbn; [reflexivity | now rewrite IH]. Qed.

Lemma all_space_lower (s : string) : all_space (PyStr.lower s) = all_space s.
Proof.
  induction s as [| c s IH]; cbn; [reflexivity |].
  now rewrite lower_char_isspace, IH.
Qed.

Lemma lstrip_all_space (s : string) :
  all_space s = true -> PyStr.lstrip s = EmptyString.
Proof.
  induction s as [| c s IH]; cbn; [reflexivity |].
  intros H. apply andb_prop in H. destruct H as [Hc Hs]. now rewrite Hc, IH.
Qed.

Lemma rstrip_all_space (s : string) :
  all_space s = true -> PyStr.rstrip s = EmptyString.
Proof.
  induction s as [| c s IH]; cbn; [reflexivity |].
  intros H. apply andb_prop in H. destruct H as [Hc Hs]. now rewrite IH, Hc.
Qed.

Lemma lstrip_append_space (pre s : string) :
  all_space pre = true -> PyStr.lstrip (String.append pre s) = PyStr.lstrip s.
Proof.
  induction pre as [| c pre IH]; cbn; [reflexivity |].
  intros H. apply andb_prop in H. destruct H as [Hc Hs]. now rewrite Hc, IH.
Qed.

Lemma rstrip_append_space (s post : string) :
  all_space post = true -> PyStr.rstrip (String.append s post) = PyStr.rstrip s.
Proof.
  intros H. induction s as [| c s IH]; cbn.
  - now apply rstrip_all_space.
  - now rewrite IH.
Qed.

Lemma strip_append_space (s post : string) :
  all_space post = true ->
  PyStr.strip (String.append s post) = PyStr.strip s.
Proof.
  intros H. unfold PyStr.strip. induction s as [| c s IH]; cbn.
  - now rewrite (lstrip_all_space post H).
  - destruct (PyStr.isspace c); [exact IH |].
    exact (rstrip_append_space (String c s) post H).
Qed.

Lemma strip_padded (pre s post : string) :
  all_space pre = true -> all_space post = true ->
  PyStr.strip (String.append pre (String.append s post)) = PyStr.strip s.
Proof.
  intros Hpre Hpost.
  transitivity (PyStr.strip (String.append s post)).
  - unfold PyStr.strip. now rewrite lstrip_append_space.
  - now apply strip_append_space.
Qed.

Section CacheExtras.
Import QueryCache.

(** X20.  The cache key of a query ignores blanks around the text and the
    case of its letters: padding a query with whitespace on either side, or
    lower-casing it, gives the same key, so such texts share one cache
    entry. *)
Theorem cache_key_ignores_case_and_outer_blanks :
  forall (q pre post : string),
    all_space pre = true -> all_space post = true ->
    _get_cache_key (String.append pre (String.append q post))
    = _get_cache_key q /\
    _get_cache_key (PyStr.lower q) = _get_cache_key q.
Proof.
  intros q pre post Hpre Hpost. unfold _get_cache_key. split.
  - rewrite !lower_append.
    rewrite strip_padded; [reflexivity | |]; now rewrite all_space_lower.
  - now rewrite lower_idempotent.
Qed.



(** The eviction step on any consistent cache, whatever its capacity. *)
Lemma make_room_any_capacity (c : t) :
  consistent c ->
  PyDict.len (_cache c) <= Z.max 1 (max_size c) ->
  consistent (make_room c) /\
  PyDict.len (_cache (make_room c)) <= Z.max 1 (max_size c) - 1 /\
  max_size (make_room c) = max_size c.
Proof.
  intros Hc Hlen. unfold make_room.
  destruct (Z.geb_spec (PyDict.len (_cache c)) (max_size c)) as [Hfull | Hroom].
  2: { repeat split; try apply Hc; lia. }
  destruct (_cache c) as [| e d] eqn:Ecache.
  - assert (Ek : PyDict.keys (_access_times c) = []).
    { destruct Hc as [Hk _]. rewrite Ecache in Hk. now rewrite <- Hk. }
    unfold _evict_oldest. rewrite Ek. rewrite Ecache.
    repeat split; try apply Hc; cbn; lia.
  - assert (Hne : _cache c <> []) by (rewrite Ecache; discriminate).
    destruct (evict_oldest_spec c Hc Hne)
      as (victim & tv & before & after & _ & _ & _ & Ec & Ea & Hin & Hm & _).
    split.
    { destruct (consistent_del c victim Hc) as [Hk Hwf]. fields.
      split; [now rewrite Ec, Ea | now rewrite Ec]. }
    split; [| exact Hm].
    rewrite Ec, !dict_len_keys, dict_keys_del.
    destruct Hc as [_ Hwf].
    pose proof (keys_after_del_length victim _ Hwf Hin).
    rewrite <- Ecache, dict_len_keys in Hlen. lia.
Qed.

Lemma step_within (capacity : Z) (op : CacheClient.Op) (c : t) (w : World) :
  within capacity c -> within capacity (fst (CacheClient.step (c, w) op)).
Proof.
  intros (Hc & Hlen & Hm). destruct op as [q | q r |]; cbn [CacheClient.step].
  - pose proof (get_preserves q c w Hc) as H. cbv zeta in H.
    destruct (get q c w) as [[res c1] w1]. fields.
    destruct H as (H1 & H2 & H3 & _).
    split; [exact H1 | split; [lia | congruence]].
  - rewrite <- Hm in Hlen.
    destruct (make_room_any_capacity c Hc Hlen) as (H1 & H2 & H3).
    change (within capacity (fst (put q r c w))). rewrite put_unfold.
    split; [now apply consistent_set |]. fields.
    split; [| congruence].
    rewrite dict_len_keys, dict_keys_set.
    pose proof (keys_after_set_length (_get_cache_key q)
                  (PyDict.keys (_cache (make_room c)))).
    rewrite dict_len_keys in H2. lia.
  - unfold clear. fields. repeat split; try constructor; cbn; try lia;
      try exact Hm.
Qed.

(** X22.  A cache of any capacity and time-to-live, zero and negative ones
    included, driven through its public methods in any order, keeps its two
    dictionaries on the same keys in the same order, each key once, and
    never holds more entries than its capacity, or than one when the
    capacity is below one. *)
Theorem cache_is_consistent_and_bounded_for_any_capacity :
  forall (capacity ttl : Z) (ops : list CacheClient.Op) (w : World),
    let c := fst (CacheClient.run ops (init capacity ttl, w)) in
    PyDict.keys (_cache c) = PyDict.keys (_access_times c) /\
    NoDup (PyDict.keys (_cache c)) /\
    PyDict.len (_cache c) <= Z.max 1 capacity.
Proof.
  intros capacity ttl ops w.
  assert (H : forall c0 w0, within capacity c0 ->
                within capacity (fst (CacheClient.run ops (c0, w0)))).
  { induction ops as [| op ops IH]; intros c0 w0 H0; [exact H0 |].
    cbn [CacheClient.run fold_left].
    pose proof (step_within capacity op c0 w0 H0) as H1.
    destruct (CacheClient.step (c0, w0) op) as [c1 w1]. apply IH, H1. }
  destruct (H (init capacity ttl) w) as ((Hk & Hwf) & Hlen & _).
  - repeat split; cbn; try constructor. lia.
  - cbv zeta. auto.
Qed.

End CacheExtras.

(* ------------------------------------------------------------------ *)
(** ** The properties on the runs of [main] and of the scenarios *)

Lemma permitted_read_counts_one_hit_or_miss_witness :
  let self := fst (snd Demo.first_read) in
  let w := snd (snd Demo.first_read) in
  let q := Demo.users_query_again in
  let m := DatabaseProxy.metrics_collector self in
  let out := DatabaseProxy.execute_query RealDatabaseService.init q (self, w) in
  let m' := DatabaseProxy.metrics_collector (fst (snd out)) in
  match fst (fst (QueryCache.get q (DatabaseProxy.query_cache self) w)) with
  | Some r =>
      fst out = Returns r /\
      MetricsCollector.cache_hits m' = MetricsCollector.cache_hits m + 1 /\
      MetricsCollector.cache_misses m' = MetricsCollector.cache_misses m /\
      MetricsCollector.query_count m' = MetricsCollector.query_count m
  | None =>
      MetricsCollector.cache_hits m' = MetricsCollector.cache_hits m /\
      MetricsCollector.cache_misses m' = MetricsCollector.cache_misses m + 1 /\
      (MetricsCollector.query_count m' = MetricsCollector.query_count m + 1
       <-> exists r, fst out = Returns r)
  end.
Proof.
  apply (permitted_read_counts_one_hit_or_miss RealDatabaseService.init
           Demo.users_query_again (fst (snd Demo.first_read))
           (snd (snd Demo.first_read))).
  vm_compute. reflexivity.
Defined.

Lemma read_after_write_is_a_miss_witness :
  let before := DatabaseProxy.metrics_collector
                  (fst (snd Demo.after_price_update)) in
  let after := DatabaseProxy.metrics_collector
                 (fst (snd Scenario.read_after_update)) in
  MetricsCollector.cache_misses after
  = MetricsCollector.cache_misses before + 1 /\
  MetricsCollector.cache_hits after = MetricsCollector.cache_hits before /\
  (forall r, fst Scenario.read_after_update = Returns r ->
     MetricsCollector.query_count after
     = MetricsCollector.query_count before + 1).
Proof.
  apply (read_after_write_is_a_miss RealDatabaseService.init
           Demo.price_update "SELECT * FROM products"
           (fst Demo.warm) (fst (snd Demo.after_price_update))
           (fst (snd Scenario.read_after_update))
           (snd Demo.warm) (snd (snd Demo.after_price_update))
           (snd (snd Scenario.read_after_update)) 2
           (fst Scenario.read_after_update)).
  - vm_compute. reflexivity.
  - vm_compute. reflexivity.
  - vm_compute. reflexivity.
  - vm_compute. reflexivity.
Defined.

Lemma transaction_is_audited_only_on_success_witness :
  DatabaseProxy.query_cache
    (fst (snd (DatabaseProxy.commit_transaction
                 (fst Demo.warm, snd Demo.warm))))
  = DatabaseProxy.query_cache (fst Demo.warm).
Proof.
  apply (transaction_is_audited_only_on_success (fst Demo.warm)
           (snd Demo.warm)).
  vm_compute. discriminate.
Defined.

Lemma client_is_refused_without_the_capability_witness :
  exists msg,
    DatabaseClient.update_user_profile RealDatabaseService.init "3"
      Scenario.profile
      (fst (Demo.fresh Demo.readonly_permissions),
       snd (Demo.fresh Demo.readonly_permissions))
    = (Raises (PermissionError msg),
       (fst (Demo.fresh Demo.readonly_permissions),
        snd (Demo.fresh Demo.readonly_permissions))).
Proof.
  apply (client_is_refused_without_the_capability RealDatabaseService.init
           (fst (Demo.fresh Demo.readonly_permissions))
           (snd (Demo.fresh Demo.readonly_permissions)) "3" Scenario.profile).
  vm_compute. reflexivity.
Defined.

Lemma profile_update_empties_the_cache_witness :
  QueryCache._cache
    (DatabaseProxy.query_cache (fst (snd Scenario.client_update))) = [] /\
  QueryCache._access_times
    (DatabaseProxy.query_cache (fst (snd Scenario.client_update))) = [].
Proof.
  apply (profile_update_empties_the_cache RealDatabaseService.init
           (fst Demo.warm) (fst (snd Scenario.client_update))
           (snd Demo.warm) (snd (snd Scenario.client_update))
           "3" Scenario.profile true).
  vm_compute. reflexivity.
Defined.

Lemma failed_connection_is_audited_and_reported_witness :
  fst Scenario.failed_update
  = Raises (RuntimeError "Failed to connect to database") /\
  AuditLogger._logs
    (DatabaseProxy.audit_logger (fst (snd Scenario.failed_update)))
  = AuditLogger._logs (DatabaseProxy.audit_logger (fst Scenario.unreachable))
    ++ [connection_entry
          (clock (snd Scenario.unreachable) (ticks (snd Scenario.unreachable)))
          (UserPermissions.user_id
             (DatabaseProxy.user_permissions (fst Scenario.unreachable)))
          false] /\
  DatabaseProxy.metrics_collector (fst (snd Scenario.failed_update))
  = DatabaseProxy.metrics_collector (fst Scenario.unreachable) /\
  DatabaseProxy.query_cache (fst (snd Scenario.failed_update))
  = DatabaseProxy.query_cache (fst Scenario.unreachable) /\
  service_connected (fst (snd Scenario.failed_update)) = false.
Proof.
  destruct (failed_connection_is_audited_and_reported Demo.price_update
              (fst Scenario.unreachable) (snd Scenario.unreachable))
    as [Hupdate _].
  - vm_compute. reflexivity.
  - vm_compute. reflexivity.
  - vm_compute. reflexivity.
  - apply (Hupdate (fst (snd Scenario.failed_update))
             (snd (snd Scenario.failed_update))
             (fst Scenario.failed_update)).
    vm_compute. reflexivity.
Defined.

Lemma begin_transaction_does_not_reconnect_witness :
  exists self',
    DatabaseProxy.begin_transaction RealDatabaseService.init
      (fst (snd Scenario.failed_update), snd (snd Scenario.failed_update))
    = (Returns false, (self', snd (snd Scenario.failed_update))) /\
    DatabaseProxy.calls self'
    = DatabaseProxy.calls (fst (snd Scenario.failed_update))
      ++ [StoreCall store_begin_transaction None] /\
    DatabaseProxy._real_service self'
    = Some (RealDatabaseService.init Demo.db_config) /\
    DatabaseProxy.audit_logger self'
    = DatabaseProxy.audit_logger (fst (snd Scenario.failed_update)) /\
    DatabaseProxy.metrics_collector self'
    = DatabaseProxy.metrics_collector (fst (snd Scenario.failed_update)).
Proof.
  apply (begin_transaction_does_not_reconnect
           (fst (snd Scenario.failed_update))
           (snd (snd Scenario.failed_update))
           (RealDatabaseService.init Demo.db_config)).
  - vm_compute. reflexivity.
  - reflexivity.
Defined.

Lemma connect_on_connected_proxy_counts_again_witness :
  exists self',
    DatabaseProxy.connect RealDatabaseService.init
      (fst Demo.warm, snd Demo.warm)
    = (Returns true, (self', snd (now (snd Demo.warm)))) /\
    MetricsCollector.connection_count (DatabaseProxy.metrics_collector self')
    = MetricsCollector.connection_count
        (DatabaseProxy.metrics_collector (fst Demo.warm)) + 1 /\
    AuditLogger._logs (DatabaseProxy.audit_logger self')
    = AuditLogger._logs (DatabaseProxy.audit_logger (fst Demo.warm))
      ++ [connection_entry
            (clock (snd Demo.warm) (ticks (snd Demo.warm)))
            (UserPermissions.user_id
               (DatabaseProxy.user_permissions (fst Demo.warm)))
            true] /\
    DatabaseProxy._real_service self'
    = DatabaseProxy._real_service (fst Demo.warm).
Proof.
  apply (connect_on_connected_proxy_counts_again (fst Demo.warm)
           (snd Demo.warm)).
  vm_compute. reflexivity.
Defined.

Lemma update_reports_one_to_five_rows_witness :
  1 <= Demo.value 0 (fst Demo.after_price_update) <= 5.
Proof.
  apply (update_reports_one_to_five_rows Demo.price_update
           (fst Demo.warm) (fst (snd Demo.after_price_update))
           (snd Demo.warm) (snd (snd Demo.after_price_update))
           (Demo.value 0 (fst Demo.after_price_update))
           "3" Scenario.profile true).
  vm_compute. reflexivity.
Defined.

Lemma transactions_do_not_nest_witness :
  let opened :=
    begin_times 3 Scenario.connected_service Demo.world in
  let closed := RealDatabaseService.with_in_transaction false opened in
  RealDatabaseService.commit_transaction opened Demo.world
  = (Returns true, closed, Demo.world) /\
  RealDatabaseService.rollback_transaction opened Demo.world
  = (Returns true, closed, Demo.world) /\
  RealDatabaseService.commit_transaction closed Demo.world
  = (Returns false, closed, Demo.world) /\
  RealDatabaseService.rollback_transaction closed Demo.world
  = (Returns false, closed, Demo.world).
Proof.
  apply (transactions_do_not_nest 2 Scenario.connected_service Demo.world).
  reflexivity.
Defined.

Lemma disconnect_keeps_the_transaction_open_witness :
  let s' :=
    snd (fst (RealDatabaseService.disconnect
                Scenario.service_in_transaction Demo.world)) in
  RealDatabaseService._connected s' = false /\
  RealDatabaseService.begin_transaction s' Demo.world
  = (Returns false, s', Demo.world) /\
  fst (fst (RealDatabaseService.commit_transaction s' Demo.world))
  = Returns true /\
  RealDatabaseService.execute_query Demo.users_query s' Demo.world
  = (Raises (RuntimeError "Not connected to database"), s', Demo.world) /\
  RealDatabaseService.execute_update Demo.users_query s' Demo.world
  = (Raises (RuntimeError "Not connected to database"), s', Demo.world).
Proof.
  apply (disconnect_keeps_the_transaction_open
           Scenario.service_in_transaction Demo.world Demo.users_query).
  reflexivity.
Defined.

Lemma user_data_query_selects_every_user_witness :
  exists r w',
    RealDatabaseService.execute_query (DatabaseClient.user_data_query "3")
      Scenario.connected_service Demo.world
    = (Returns r, Scenario.connected_service, w') /\
    rows r = RealDatabaseService.table "users" Scenario.connected_service.
Proof.
  apply (user_data_query_selects_every_user "3" Scenario.connected_service
           Demo.world).
  reflexivity.
Defined.

Lemma blank_led_text_is_always_refused_witness :
  UserPermissions.has_permission Demo.admin_permissions
    (String " " Demo.users_query) = false /\
  UserPermissions.has_permission Demo.admin_permissions EmptyString = false.
Proof.
  apply (blank_led_text_is_always_refused Demo.admin_permissions " "
           Demo.users_query).
  reflexivity.
Defined.

Lemma cache_key_ignores_case_and_outer_blanks_witness :
  QueryCache._get_cache_key
    (String.append "  " (String.append Demo.users_query "  "))
  = QueryCache._get_cache_key Demo.users_query /\
  QueryCache._get_cache_key (PyStr.lower Demo.users_query)
  = QueryCache._get_cache_key Demo.users_query.
Proof.
  apply (cache_key_ignores_case_and_outer_blanks Demo.users_query "  " "  ").
  - reflexivity.
  - reflexivity.
Defined.

